(** * Shallow embedding of mozregui/bisection.py (GUI bisection layer)

    The GUI layer wires a [GuiBisector] living on a worker QThread to a
    [BisectRunner] living on the GUI thread.  Collaborators from the
    core [mozregression] package (the bisection handler, the download
    manager base class, the launcher) are abstracted as section
    variables, or modelled from the spec where their behaviour decides
    a property. *)

From stdpp Require Import base gmap sets list strings.
From Stdlib Require Import ZArith.

Open Scope string_scope.

(** ** Exceptions raised by collaborators.
    [MozRegressionError] stands for instances of
    [mozregression.errors.MozRegressionError] (and its subclasses);
    [OtherError] for any exception of another class. *)
Inductive exn :=
| MozRegressionError (msg : string)
| OtherError (msg : string).

(** ** Result codes of [mozregression.bisector.Bisection].
    [RUNNING], [NO_DATA], [FINISHED] and [USER_EXIT] are the class
    constants of the core [Bisection]; line 11 of the source adds
    [Bisection.EXCEPTION = -1]. *)
Definition RUNNING : Z := 0.
Definition NO_DATA : Z := 1.
Definition FINISHED : Z := 2.
Definition USER_EXIT : Z := 3.
Definition EXCEPTION : Z := -1.

(** A build_info dict: the handler-provided keys ([bi_fields]), and
    ['build_path'] which [focus_download] adds. *)
Record build_info (BI : Type) := mk_build_info {
  bi_fields : BI;
  build_path : option string
}.
Arguments mk_build_info {BI}.
Arguments bi_fields {BI}.
Arguments build_path {BI}.

(** A download task: [dl.get_dest()], [dl.is_canceled()], [dl.error()]. *)
Record download := mk_download {
  dl_url : string;
  dl_dest : string;
  dl_canceled : bool;
  dl_error : option string
}.

(** The tracked downloads ([self._downloads]), keyed by destination. *)
Abbreviation downloads := (gmap string download).

(** The collaborators of the GUI layer from the core [mozregression]
    package.  The bisection handler ([Bisection] wrapping a
    Nightly/Inbound handler) is a stateful object: its state is [H], a
    mid point is an [M], the fields of a build_info dict are a [BI],
    application info is an [AppInfo]. *)
Class collab := {
  H : Type; M : Type; BI : Type; AppInfo : Type; Launcher : Type;
  (** [self.bisection.search_mid_point()]: may mutate the handler and
      may raise. *)
  search_mid_point : H -> H * (exn + M);
  (** [self.bisection.init_handler(mid)] *)
  init_handler : H -> M -> H * Z;
  (** [self.bisection.handler.build_infos(mid, self.fetch_config)] *)
  handler_build_infos : H -> M -> BI;
  (** [self.bisection.update_build_info(self.mid, app_info)]; [self.mid]
      is passed as the Python value it holds, possibly [None]. *)
  update_build_info : H -> option M -> AppInfo -> H;
  (** [self.bisection.handle_verdict(self.mid, verdict)] *)
  handle_verdict : H -> option M -> option string -> H * Z;
  (** [BuildDownloadManager._extract_download_info(build_info)] returns
      [(build_url, fname)]; [get_dest fname] is
      [os.path.join(destdir, fname)]. *)
  extract_download_info : BI -> string * string;
  get_dest : string -> string;
  (** [TestRunner.create_launcher(build_info)], called with the Python
      value [self.build_infos], and [launcher.get_app_info()]. *)
  create_launcher : option (build_info BI) -> Launcher;
  get_app_info : Launcher -> AppInfo;
  empty_app_info : AppInfo
}.

Section Bisection.
Context `{C : collab}.

Abbreviation build_info := (build_info BI).

(** Signals emitted (and launcher side effects), in emission order. *)
Inductive event :=
| EStarted
| EStepStarted (n : nat)
| EStepBuildFound (n : nat) (bi : build_info)
| EStepFinished (n : nat) (verdict : option string)
| EFinished (code : Z)
| EDownloadStarted (d : download)
| EDownloadFinished (d : download)
| ELauncherStart
| ELauncherStop
| EEvaluateStarted
| EEvaluateFinished.

(** ** Download manager *)

(** Modelled from the spec: [DownloadManager.cancel(cancel_if)] of the
    core package (not part of this source) "cancels every tracked
    download matching predicate", cooperatively: it sets the cancelled
    flag; cancelling an already cancelled download is a no-op. *)
Definition cancel (cancel_if : download -> bool) (dls : downloads) : downloads :=
  (fun dl => if cancel_if dl && negb (dl_canceled dl)
             then {| dl_url := dl_url dl; dl_dest := dl_dest dl;
                     dl_canceled := true; dl_error := dl_error dl |}
             else dl) <$> dls.

(** [cancel()] with no predicate. *)
Definition cancel_all (dls : downloads) : downloads := cancel (fun _ => true) dls.

(** Modelled from the spec: [DownloadManager.download(url, fname)] of
    the core package "starts (or resumes tracking) the download for the
    target key if not already active": a tracked, non-cancelled download
    for [dest] is returned as is; otherwise a new download is started
    and tracked (emitting [download_started]) unless the file already
    exists on disk ([files]), in which case [None] is returned. *)
Definition download_file (files : gset string) (dls : downloads)
    (url fname : string) : downloads * option download * list event :=
  let dest := get_dest fname in
  match dls !! dest with
  | Some dl => if negb (dl_canceled dl) then (dls, Some dl, [])
               else if decide (dest ∈ files) then (dls, None, [])
               else let dl' := mk_download url dest false None in
                    (<[dest := dl']> dls, Some dl', [EDownloadStarted dl'])
  | None => if decide (dest ∈ files) then (dls, None, [])
            else let dl' := mk_download url dest false None in
                 (<[dest := dl']> dls, Some dl', [EDownloadStarted dl'])
  end.

(** [GuiBuildDownloadManager.focus_download(build_info)] (lines 31-41).
    The build_info dict is mutated in place; the updated dict is
    returned.  [dl.set_progress] only wires progress reporting. *)
Definition focus_download (files : gset string) (dls : downloads)
    (bi : build_info) : downloads * build_info * list event :=
  let '(build_url, fname) := extract_download_info (bi_fields bi) in
  let dest := get_dest fname in
  let dls1 := cancel (fun dl => bool_decide (dest <> dl_dest dl)) dls in
  let '(dls2, _, evs) := download_file files dls1 build_url fname in
  (dls2, {| bi_fields := bi_fields bi; build_path := Some dest |}, evs).

(** ** Test runner (lines 44-67) *)

Record gui_test_runner := mk_test_runner {
  app_info : AppInfo;
  verdict : option string;
  launcher : option Launcher
}.

Definition new_test_runner : gui_test_runner :=
  mk_test_runner empty_app_info None None.

(** [GuiTestRunner.evaluate(build_info)] *)
Definition tr_evaluate (tr : gui_test_runner) (bi : option build_info) : gui_test_runner * list event :=
  let l := create_launcher bi in
  ({| app_info := get_app_info l; verdict := verdict tr; launcher := Some l |},
   [ELauncherStart; EEvaluateStarted]).

(** [GuiTestRunner.finish(verdict)]; [None] is the [AssertionError]
    of [assert self.launcher]. *)
Definition tr_finish (tr : gui_test_runner) (v : string) : option (gui_test_runner * list event) :=
  match launcher tr with
  | None => None
  | Some _ =>
      Some ({| app_info := app_info tr; verdict := Some v; launcher := None |},
            [ELauncherStop; EEvaluateFinished])
  end.

(** ** GuiBisector (lines 70-169) *)

Record gui_bisector := mk_gui_bisector {
  bisection : option H;
  mid : option M;
  build_infos : option build_info;
  step_num : nat;
  error : option exn;
  dm : downloads;
  test_runner : gui_test_runner
}.

(** [GuiBisector.__init__]: a fresh download manager and test runner. *)
Definition new_gui_bisector : gui_bisector :=
  mk_gui_bisector None None None 0 None ∅ new_test_runner.

(** Slots of the bisector, run on the worker thread's event queue
    (every connection to the bisector is queued: it was moved to the
    worker thread). *)
Inductive task :=
| TBisectNext
| TEvaluate
| TBuildDlFinished (d : download)
| TEvaluateFinished.

(** The running program: the bisector object, the files on disk, the
    worker thread's event queue, the number of [BisectRunner.evaluate]
    calls queued on the GUI thread, and the signals emitted so far. *)
Record world := mk_world {
  bis : gui_bisector;
  files : gset string;
  queue : list task;
  dialogs : nat;
  trace : list event
}.

(** *** A state and exception monad for the slots *)

Definition slot (A : Type) : Type := world -> world * (exn + A).

#[local] Instance slot_ret : MRet slot := fun A a w => (w, inr a).
#[local] Instance slot_bind : MBind slot := fun A B k m w =>
  match m w with
  | (w', inl e) => (w', inl e)
  | (w', inr a) => k a w'
  end.

Definition raise {A} (e : exn) : slot A := fun w => (w, inl e).

(** [try: m except MozRegressionError: h] *)
Definition try_moz {A} (m : slot A) (h : exn -> slot A) : slot A := fun w =>
  match m w with
  | (w', inl (MozRegressionError s)) => h (MozRegressionError s) w'
  | r => r
  end.

Definition get_bis : slot gui_bisector := fun w => (w, inr (bis w)).

Definition set_bis (b : gui_bisector) : slot unit := fun w =>
  (mk_world b (files w) (queue w) (dialogs w) (trace w), inr tt).

Definition get_files : slot (gset string) := fun w => (w, inr (files w)).

(** [QTimer.singleShot(_, slot)] from the worker thread. *)
Definition post (t : task) : slot unit := fun w =>
  (mk_world (bis w) (files w) (queue w ++ [t]) (dialogs w) (trace w), inr tt).

(** Emitting a signal records it and queues the slots connected to it:
    [download_finished] to [_build_dl_finished] and [evaluate_finished]
    to [_evaluate_finished] on the worker thread, [evaluate_started] to
    [BisectRunner.evaluate] on the GUI thread. *)
Definition deliver (w : world) (ev : event) : world :=
  let w := mk_world (bis w) (files w) (queue w) (dialogs w) (trace w ++ [ev]) in
  match ev with
  | EDownloadFinished d =>
      mk_world (bis w) (files w) (queue w ++ [TBuildDlFinished d]) (dialogs w) (trace w)
  | EEvaluateFinished =>
      mk_world (bis w) (files w) (queue w ++ [TEvaluateFinished]) (dialogs w) (trace w)
  | EEvaluateStarted =>
      mk_world (bis w) (files w) (queue w) (S (dialogs w)) (trace w)
  | _ => w
  end.

Definition emit_all (evs : list event) : slot unit := fun w =>
  (foldl deliver w evs, inr tt).

Definition emit (ev : event) : slot unit := emit_all [ev].

(** Field updates of the bisector. *)
Definition with_bisection (b : gui_bisector) (h : option H) : gui_bisector :=
  mk_gui_bisector h (mid b) (build_infos b) (step_num b) (error b) (dm b) (test_runner b).
Definition with_mid (b : gui_bisector) (m : option M) : gui_bisector :=
  mk_gui_bisector (bisection b) m (build_infos b) (step_num b) (error b) (dm b) (test_runner b).
Definition with_build_infos (b : gui_bisector) (bi : option build_info) : gui_bisector :=
  mk_gui_bisector (bisection b) (mid b) bi (step_num b) (error b) (dm b) (test_runner b).
Definition with_step_num (b : gui_bisector) (n : nat) : gui_bisector :=
  mk_gui_bisector (bisection b) (mid b) (build_infos b) n (error b) (dm b) (test_runner b).
Definition with_error (b : gui_bisector) (e : option exn) : gui_bisector :=
  mk_gui_bisector (bisection b) (mid b) (build_infos b) (step_num b) e (dm b) (test_runner b).
Definition with_dm (b : gui_bisector) (d : downloads) : gui_bisector :=
  mk_gui_bisector (bisection b) (mid b) (build_infos b) (step_num b) (error b) d (test_runner b).
Definition with_test_runner (b : gui_bisector) (tr : gui_test_runner) : gui_bisector :=
  mk_gui_bisector (bisection b) (mid b) (build_infos b) (step_num b) (error b) (dm b) tr.

(** Attribute access on [self.bisection] while it is still [None]. *)
Definition attribute_error : exn := OtherError "AttributeError".

Definition get_bisection : slot H :=
  b ← get_bis;
  match bisection b with
  | Some h => mret h
  | None => raise attribute_error
  end.

Definition set_bisection (h : H) : slot unit :=
  b ← get_bis; set_bis (with_bisection b (Some h)).

(** [self.bisection.search_mid_point()] *)
Definition call_search_mid_point : slot M :=
  h ← get_bisection;
  let '(h', r) := search_mid_point h in
  set_bisection h' ;;
  match r with
  | inl e => raise e
  | inr m => mret m
  end.

(** [GuiBisector._finish_on_exception(bisection)] (lines 92-94):
    [self.error = sys.exc_info()] keeps the exception being handled. *)
Definition _finish_on_exception (e : exn) : slot unit :=
  b ← get_bis;
  set_bis (with_error b (Some e)) ;;
  emit (EFinished EXCEPTION).

(** [GuiBisector._bisect(handler, build_data)] (lines 104-116); [h0]
    is the freshly built [Bisection]. *)
Definition _bisect (h0 : H) : slot unit :=
  b ← get_bis;
  set_bis (with_step_num (with_bisection b (Some h0)) 0) ;;
  emit EStarted ;;
  post TBisectNext.

(** [GuiBisector._bisect_next()] (lines 118-136). *)
Definition _bisect_next : slot unit :=
  b ← get_bis;
  set_bis (with_step_num b (S (step_num b))) ;;
  b ← get_bis;
  emit (EStepStarted (step_num b)) ;;
  found ← try_moz
    (m ← call_search_mid_point;
     b ← get_bis;
     set_bis (with_mid b (Some m)) ;;
     mret (Some m))
    (fun e => _finish_on_exception e ;; mret None);
  match found with
  | None => mret tt
  | Some m =>
      h ← get_bisection;
      let '(h', result) := init_handler h m in
      set_bisection h' ;;
      if negb (Z.eqb result RUNNING) then emit (EFinished result)
      else
        h ← get_bisection;
        let bi := mk_build_info (handler_build_infos h m) None in
        b ← get_bis;
        set_bis (with_build_infos b (Some bi)) ;;
        fs ← get_files;
        b ← get_bis;
        let '(dls', bi', evs) := focus_download fs (dm b) bi in
        set_bis (with_build_infos (with_dm b dls') (Some bi')) ;;
        emit_all evs ;;
        b ← get_bis;
        emit (EStepBuildFound (step_num b) bi')
  end.

(** [GuiBisector._evaluate()] (lines 138-142): [Bisection.evaluate]
    hands [self.build_infos] to the test runner. *)
Definition _evaluate : slot unit :=
  _ ← get_bisection;
  b ← get_bis;
  let '(tr', evs) := tr_evaluate (test_runner b) (build_infos b) in
  set_bis (with_test_runner b tr') ;;
  emit_all evs.

(** [self.build_infos['build_path']]: a [TypeError] while
    [self.build_infos] is [None], a [KeyError] without the key. *)
Definition get_build_path : slot string :=
  b ← get_bis;
  match build_infos b with
  | None => raise (OtherError "TypeError")
  | Some bi =>
      match build_path bi with
      | None => raise (OtherError "KeyError")
      | Some p => mret p
      end
  end.

(** [GuiBisector._build_dl_finished(dl)] (lines 144-154). *)
Definition _build_dl_finished (dl : download) : slot unit :=
  p ← get_build_path;
  if negb (String.eqb (dl_dest dl) p) then mret tt
  else if dl_canceled dl || bool_decide (is_Some (dl_error dl)) then mret tt
  else post TEvaluate.

(** [GuiBisector._evaluate_finished()] (lines 156-169). *)
Definition _evaluate_finished : slot unit :=
  h ← get_bisection;
  b ← get_bis;
  let h1 := update_build_info h (mid b) (app_info (test_runner b)) in
  set_bisection h1 ;;
  b ← get_bis;
  emit (EStepFinished (step_num b) (verdict (test_runner b))) ;;
  h ← get_bisection;
  b ← get_bis;
  let '(h2, result) := handle_verdict h (mid b) (verdict (test_runner b)) in
  set_bisection h2 ;;
  if negb (Z.eqb result RUNNING) then emit (EFinished result)
  else post TBisectNext.

Definition run_task (t : task) : slot unit :=
  match t with
  | TBisectNext => _bisect_next
  | TEvaluate => _evaluate
  | TBuildDlFinished d => _build_dl_finished d
  | TEvaluateFinished => _evaluate_finished
  end.

(** ** The evaluation dialog of [BisectRunner.evaluate] (lines 223-232).
    [QMessageBox.question(..., buttons=QMessageBox.Yes | QMessageBox.No)]
    returns the button clicked among the two it shows; a dismissed
    dialog returns its escape button, which Qt takes to be the single
    button of NoRole, [No]. *)
Inductive standard_button := Yes | No.

#[global] Instance standard_button_eq_dec : EqDecision standard_button.
Proof. solve_decision. Defined.

(** The verdict computed from the dialog's answer. *)
Definition dialog_verdict (res : standard_button) : string :=
  let verdict := "g" in
  if bool_decide (res = No) then "b" else verdict.

(** [BisectRunner.evaluate] on the GUI thread: asks the user, then calls
    [self.bisector.test_runner.finish(verdict)]; an [AssertionError] of
    [finish] leaves the test runner untouched. *)
Definition runner_evaluate (res : standard_button) (w : world) : world :=
  let w := mk_world (bis w) (files w) (queue w) (pred (dialogs w)) (trace w) in
  match tr_finish (test_runner (bis w)) (dialog_verdict res) with
  | None => w
  | Some (tr', evs) =>
      foldl deliver
        (mk_world (with_test_runner (bis w) tr') (files w) (queue w) (dialogs w) (trace w))
        evs
  end.

(** A tracked download terminates (possibly with an error): the
    download thread calls [_download_finished], which emits
    [download_finished] and, modelled from the spec's "set of in-flight
    downloads", stops tracking it; a successful download leaves its file
    on disk. *)
Definition download_done (k : string) (d : download) (e : option string)
    (w : world) : world :=
  let d' := mk_download (dl_url d) (dl_dest d) (dl_canceled d) e in
  let fs := match e with None => {[ dl_dest d ]} ∪ files w | Some _ => files w end in
  deliver (mk_world (with_dm (bis w) (delete k (dm (bis w)))) fs (queue w) (dialogs w) (trace w))
    (EDownloadFinished d').

(** One step of the running program: the worker thread runs the slot at
    the head of its queue (an uncaught exception ends the slot, leaving
    the state it reached), a tracked download terminates, or the user
    answers a queued evaluation dialog. *)
Inductive wstep : world -> world -> Prop :=
| WTask w t q :
    queue w = t :: q ->
    wstep w (fst (run_task t (mk_world (bis w) (files w) q (dialogs w) (trace w))))
| WDownload w k d e :
    dm (bis w) !! k = Some d ->
    wstep w (download_done k d e w)
| WAnswer w res :
    0 < dialogs w ->
    wstep w (runner_evaluate res w).

Definition wsteps : world -> world -> Prop := rtc wstep.

(** The program right after [GuiBisector.bisect] has called [_bisect]
    with the freshly built [Bisection] [h0], on a fresh bisector. *)
Definition init_world (h0 : H) (fs : gset string) : world :=
  fst (_bisect h0 (mk_world new_gui_bisector fs [] 0 [])).

Definition reachable (w : world) : Prop :=
  exists h0 fs, wsteps (init_world h0 fs) w.

(** The indices carried by the [step_started] signals of a trace. *)
Fixpoint step_indices (tr : list event) : list nat :=
  match tr with
  | [] => []
  | EStepStarted n :: tr' => n :: step_indices tr'
  | _ :: tr' => step_indices tr'
  end.

(** The sequence 1, 2, ..., n. *)
Fixpoint upto (n : nat) : list nat :=
  match n with
  | 0 => []
  | S n' => upto n' ++ [n]
  end.

Fixpoint count_finished (tr : list event) : nat :=
  match tr with
  | [] => 0
  | EFinished _ :: tr' => S (count_finished tr')
  | _ :: tr' => count_finished tr'
  end.

(** ** BisectRunner (lines 172-250) *)

(** The runner refers to bisector objects and QThreads; bisector
    objects live in a heap, since the worker thread keeps the object the
    runner drops.  [running] holds the threads whose event loop runs. *)
Record bisect_runner := mk_bisect_runner {
  heap : gmap nat gui_bisector;
  rbisector : option nat;
  rthread : option nat;
  running : gset nat
}.

(** [BisectRunner.stop()] (lines 208-216): cancel the downloads of the
    current bisector and drop it; quit the thread, wait for it to end
    and drop it. *)
Definition stop (r : bisect_runner) : bisect_runner :=
  let r := match rbisector r with
           | Some i =>
               mk_bisect_runner
                 (alter (fun b => with_dm b (cancel_all (dm b))) i (heap r))
                 None (rthread r) (running r)
           | None => r
           end in
  match rthread r with
  | Some t => mk_bisect_runner (heap r) (rbisector r) None (running r ∖ {[ t ]})
  | None => r
  end.

(** The message box shown at the end of a bisection. *)
Inductive dialog_kind := Warning | Critical | Information.

Record end_dialog := mk_end_dialog {
  dialog_fn : dialog_kind;
  dialog_msg : string
}.

(** [str(exc)] *)
Definition exn_str (e : exn) : string :=
  match e with MozRegressionError s => s | OtherError s => s end.

(** [BisectRunner.bisection_finished(bisection, resultcode)]
    (lines 234-246); [None] is an uncaught exception of the slot
    ([self.bisector] is [None], or [self.bisector.error] is [None]). *)
Definition bisection_finished (r : bisect_runner) (resultcode : Z)
    : option (end_dialog * bisect_runner) :=
  d ← (if Z.eqb resultcode NO_DATA then
         Some (mk_end_dialog Warning "Unable to find enough data to bisect.")
       else if Z.eqb resultcode EXCEPTION then
         i ← rbisector r;
         b ← heap r !! i;
         e ← error b;
         Some (mk_end_dialog Critical ("Error: " ++ exn_str e))
       else Some (mk_end_dialog Information "The bisection is done."));
  Some (d, stop r).

(** Every tracked download is keyed by its destination, as
    [self._downloads[dest]] is. *)
Definition wf_downloads (dls : downloads) : Prop :=
  forall k d, dls !! k = Some d -> dl_dest d = k.

(** Every tracked download not for [dest] is cancelled, and at most one
    tracked download is not cancelled, for [dest]. *)
Definition focused_on (dest : string) (dls : downloads) : Prop :=
  (forall k d, dls !! k = Some d -> dl_dest d <> dest -> dl_canceled d = true) /\
  (forall k1 d1 k2 d2, dls !! k1 = Some d1 -> dls !! k2 = Some d2 ->
     dl_canceled d1 = false -> dl_canceled d2 = false ->
     k1 = k2 /\ dl_dest d1 = dest).

(** The [step_started] signals so far carry 1, 2, ..., [self._step_num]. *)
Definition steps_numbered (w : world) : Prop :=
  step_indices (trace w) = upto (step_num (bis w)).

(** The phases a run goes through: waiting to search (1), downloading
    the focused build (2), download event queued (3), evaluation queued
    (4), dialog open with a launcher in flight (5), verdict queued (6),
    and ended, with at most one [finished] signal (7). *)
Definition phase_inv (w : world) : Prop :=
  let b := bis w in
  let cf := count_finished (trace w) in
  (queue w = [TBisectNext] /\ dm b = ∅ /\ dialogs w = 0 /\ cf = 0) \/
  (queue w = [] /\ (exists k d, dm b = {[k := d]}) /\ dialogs w = 0 /\ cf = 0) \/
  ((exists d, queue w = [TBuildDlFinished d]) /\ dm b = ∅ /\ dialogs w = 0 /\ cf = 0) \/
  (queue w = [TEvaluate] /\ dm b = ∅ /\ dialogs w = 0 /\ cf = 0) \/
  (queue w = [] /\ dm b = ∅ /\ dialogs w = 1 /\
     (exists l, launcher (test_runner b) = Some l) /\ cf = 0) \/
  (queue w = [TEvaluateFinished] /\ dm b = ∅ /\ dialogs w = 0 /\ cf = 0) \/
  (queue w = [] /\ dm b = ∅ /\ dialogs w = 0 /\ cf <= 1).

Definition all_canceled (dls : downloads) : Prop :=
  forall k d, dls !! k = Some d -> dl_canceled d = true.

(** The [(step, verdict)] pairs carried by the [step_finished] signals
    of a trace. *)
Fixpoint finished_steps (tr : list event) : list (nat * option string) :=
  match tr with
  | [] => []
  | EStepFinished n v :: tr' => (n, v) :: finished_steps tr'
  | _ :: tr' => finished_steps tr'
  end.

(** A verdict the evaluation dialog can produce. *)
Definition good_verdict (v : option string) : Prop := v = Some "g" \/ v = Some "b".

(** The phases of [phase_inv], refined with what each phase knows about
    the [step_finished] signals sent so far (steps 1 .. n, or 1 .. n-1
    while step n is under way), the verdicts, and the download of the
    focused build: started in this run, and, once its evaluation is
    queued, the last event, finished cleanly into the build's
    ['build_path']. *)
Definition run_inv (w : world) : Prop :=
  let b := bis w in
  let n := step_num b in
  let F := map fst (finished_steps (trace w)) in
  Forall good_verdict (map snd (finished_steps (trace w))) /\
  (verdict (test_runner b) = None \/ good_verdict (verdict (test_runner b))) /\
  ((queue w = [TBisectNext] /\ dm b = ∅ /\ dialogs w = 0 /\ F = upto n) \/
   (queue w = [] /\ (exists k d, dm b = {[k := d]} /\ EDownloadStarted d ∈ trace w) /\
      dialogs w = 0 /\ F = upto (pred n) /\ 1 <= n) \/
   ((exists d, queue w = [TBuildDlFinished d] /\
      last (trace w) = Some (EDownloadFinished d) /\
      (exists d0, EDownloadStarted d0 ∈ trace w /\ dl_dest d0 = dl_dest d) /\
      (dl_error d = None -> dl_dest d ∈ files w)) /\
      dm b = ∅ /\ dialogs w = 0 /\ F = upto (pred n) /\ 1 <= n) \/
   (queue w = [TEvaluate] /\ dm b = ∅ /\ dialogs w = 0 /\ F = upto (pred n) /\ 1 <= n /\
      exists bi p d, build_infos b = Some bi /\ build_path bi = Some p /\
        last (trace w) = Some (EDownloadFinished d) /\ dl_dest d = p /\
        dl_canceled d = false /\ dl_error d = None /\ p ∈ files w /\
        exists d0, EDownloadStarted d0 ∈ trace w /\ dl_dest d0 = p) \/
   (queue w = [] /\ dm b = ∅ /\ dialogs w = 1 /\
      (exists l, launcher (test_runner b) = Some l) /\ F = upto (pred n) /\ 1 <= n) \/
   (queue w = [TEvaluateFinished] /\ dm b = ∅ /\ dialogs w = 0 /\
      good_verdict (verdict (test_runner b)) /\ F = upto (pred n) /\ 1 <= n) \/
   (queue w = [] /\ dm b = ∅ /\ dialogs w = 0 /\
      (F = upto n \/ (F = upto (pred n) /\ 1 <= n)))).


(** ** [BisectRunner.bisect(fetch_config, options)] (lines 181-206) *)

Inductive handler_kind := NightlyHandler | InboundHandler.

(** [i] and [t] are the fresh [GuiBisector] and [QThread] objects;
    [options] is the options dict, a missing key raising [KeyError].
    The right component is the exception raised, or the
    [self.bisector._bisect_args] set before [self.bisector.bisect] is
    queued on the worker thread.  The signal connections only wire the
    slots modelled above. *)
Definition runner_bisect (r : bisect_runner) (i t : nat) (options : gmap string string)
    : bisect_runner * (exn + (handler_kind * string * string)) :=
  let r := stop r in
  let r := mk_bisect_runner (<[i := new_gui_bisector]> (heap r)) (Some i) (Some t) (running r) in
  match options !! "bisect_type" with
  | None => (r, inl (OtherError "KeyError"))
  | Some bisect_type =>
      let '(handler, start_key, end_key) :=
        if String.eqb bisect_type "nightlies"
        then (NightlyHandler, "start_date", "end_date")
        else (InboundHandler, "start_changeset", "end_changeset") in
      match options !! start_key with
      | None => (r, inl (OtherError "KeyError"))
      | Some start =>
          match options !! end_key with
          | None => (r, inl (OtherError "KeyError"))
          | Some end_ =>
              (mk_bisect_runner (heap r) (rbisector r) (rthread r) ({[ t ]} ∪ running r),
               inr (handler, start, end_))
          end
      end
  end.

End Bisection.

(** * A concrete handler, download layout and launcher

    The handler state is a number selecting its behaviour: from state 0
    [search_mid_point] raises a [MozRegressionError], from state 1 a
    [KeyError]; from state 2 [init_handler] answers [NO_DATA]; from any
    other state the bisection keeps running until the first verdict,
    which ends it, except from states 4, 5 and 6, where the verdict
    moves the handler to state 3, 1 and 0 and the bisection goes on to
    a second step.  The build of mid point 4 has a file of its own. *)
Definition ex_collab : collab := {|
  H := nat; M := nat; BI := string; AppInfo := unit; Launcher := unit;
  search_mid_point := fun h =>
    match h with
    | 0 => (h, inl (MozRegressionError "no build to bisect"))
    | 1 => (h, inl (OtherError "KeyError"))
    | _ => (h, inr h)
    end;
  init_handler := fun h _ => if Nat.eqb h 2 then (h, NO_DATA) else (h, RUNNING);
  handler_build_infos := fun _ m =>
    if Nat.eqb m 4 then "firefox-4.tar.bz2" else "firefox.tar.bz2";
  update_build_info := fun h _ _ => h;
  handle_verdict := fun h _ _ =>
    match h with
    | 4 => (3, RUNNING)
    | 5 => (1, RUNNING)
    | 6 => (0, RUNNING)
    | _ => (h, FINISHED)
    end;
  extract_download_info := fun fname => ("http://archive/" ++ fname, fname);
  get_dest := fun fname => "/tmp/" ++ fname;
  create_launcher := fun _ => tt;
  get_app_info := fun _ => tt;
  empty_app_info := tt
|}.

(** The run started on a handler in state [h0], with an empty cache. *)
Definition ex_world (h0 : nat) : @world ex_collab := @init_world ex_collab h0 ∅.

(** The world after the worker thread runs a queued [_bisect_next]. *)
Definition ex_next (w : @world ex_collab) : @world ex_collab :=
  fst (@run_task ex_collab TBisectNext
         (mk_world (bis w) (files w) [] (dialogs w) (trace w))).

(** The worker thread runs the slot at the head of its queue. *)
Definition ex_task (w : @world ex_collab) : @world ex_collab :=
  match queue w with
  | t :: q => fst (@run_task ex_collab t (mk_world (bis w) (files w) q (dialogs w) (trace w)))
  | [] => w
  end.

(** The first tracked download completes, with error [e]. *)
Definition ex_dl (e : option string) (w : @world ex_collab) : @world ex_collab :=
  match map_to_list (dm (bis w)) with
  | (k, d) :: _ => download_done k d e w
  | [] => w
  end.

(** A run on handler state 3: the first build is downloaded and its
    evaluation dialog is open; then the user answers Yes, and the
    verdict ends the bisection. *)
Definition ex_eval_queued : @world ex_collab :=
  ex_task (ex_dl None (ex_task (ex_world 3))).
Definition ex_dialog_open : @world ex_collab := ex_task ex_eval_queued.
Definition ex_done : @world ex_collab := ex_task (runner_evaluate Yes ex_dialog_open).

(** One full step from a world waiting to search: the build is found
    and downloaded, evaluated, the user answers Yes, and the verdict is
    handled. *)
Definition ex_round (w : @world ex_collab) : @world ex_collab :=
  ex_task (runner_evaluate Yes (ex_task (ex_task (ex_dl None (ex_task w))))).

(** A run of two full steps, from handler state 4. *)
Definition ex_two_steps : @world ex_collab := ex_round (ex_round (ex_world 4)).

(** The runner of a started bisection, with the bisector [0] of
    [ex_dialog_open] on thread [5]. *)
Definition ex_runner : @bisect_runner ex_collab :=
  mk_bisect_runner {[0 := bis ex_dialog_open]} (Some 0) (Some 5) {[5]}.

Definition ex_options : gmap string string :=
  <["bisect_type" := "nightlies"]> (<["start_date" := "2015-01-01"]>
    (<["end_date" := "2015-02-01"]> ∅)).

(** * Properties *)

Section Proofs.
Context `{C : collab}.
Local Open Scope list_scope.

Abbreviation build_info := (build_info BI).

(** ** Download manager *)

Lemma lookup_cancel (p : download -> bool) (dls : downloads) k :
  cancel p dls !! k =
  (fun dl => if p dl && negb (dl_canceled dl)
             then mk_download (dl_url dl) (dl_dest dl) true (dl_error dl)
             else dl) <$> dls !! k.
Proof. unfold cancel. by rewrite lookup_fmap. Qed.

Lemma cancel_wf p dls : wf_downloads dls -> wf_downloads (cancel p dls).
Proof.
  intros Hwf k d Hk. rewrite lookup_cancel in Hk.
  destruct (dls !! k) as [d0|] eqn:E; simpl in Hk; [|discriminate].
  injection Hk as <-. apply Hwf in E.
  by destruct (p d0 && negb (dl_canceled d0)).
Qed.

Lemma cancel_canceled p dls k d :
  cancel p dls !! k = Some d -> p d = true -> dl_canceled d = true.
Proof.
  rewrite lookup_cancel. destruct (dls !! k) as [d0|]; simpl; [|discriminate].
  intros [= <-]. destruct (p d0) eqn:Hp, (dl_canceled d0) eqn:Hc; simpl;
    rewrite ?Hp, ?Hc; auto.
Qed.

Lemma focused_on_intro dest dls :
  wf_downloads dls ->
  (forall k d, dls !! k = Some d -> dl_dest d <> dest -> dl_canceled d = true) ->
  focused_on dest dls.
Proof.
  intros Hwf Hc. split; [exact Hc|].
  intros k1 d1 k2 d2 H1 H2 Hc1 Hc2.
  assert (dl_dest d1 = dest).
  { destruct (decide (dl_dest d1 = dest)) as [?|Hn]; [done|].
    rewrite (Hc _ _ H1 Hn) in Hc1. discriminate. }
  assert (dl_dest d2 = dest).
  { destruct (decide (dl_dest d2 = dest)) as [?|Hn]; [done|].
    rewrite (Hc _ _ H2 Hn) in Hc2. discriminate. }
  apply Hwf in H1. apply Hwf in H2. split; congruence.
Qed.

Lemma download_file_shape fs dls url fname :
  exists o evs,
    download_file fs dls url fname = (dls, o, evs) \/
    download_file fs dls url fname =
      (<[get_dest fname := mk_download url (get_dest fname) false None]> dls, o, evs).
Proof.
  unfold download_file.
  destruct (dls !! get_dest fname) as [dl|];
    [destruct (negb (dl_canceled dl))|];
    repeat case_decide; eauto.
Qed.

(** Claim C3: After [focus_download(B)] returns, every tracked download whose
    destination differs from B's destination is cancelled, and at most
    one non-cancelled download remains tracked, for B's destination. *)
Theorem focus_download_focused (fs : gset string) (dls : downloads) (bi : build_info) :
  wf_downloads dls ->
  let '(dls', _, _) := focus_download fs dls bi in
  wf_downloads dls' /\
  focused_on (get_dest (extract_download_info (bi_fields bi)).2) dls'.
Proof.
  intros Hwf. unfold focus_download.
  destruct (extract_download_info (bi_fields bi)) as [url fname]; simpl.
  set (dest := get_dest fname).
  set (p := fun dl => bool_decide (dest <> dl_dest dl)).
  assert (Hwf1 : wf_downloads (cancel p dls)) by (apply cancel_wf, Hwf).
  assert (Hc1 : forall k d, cancel p dls !! k = Some d -> dl_dest d <> dest ->
                       dl_canceled d = true).
  { intros k d Hk Hn. apply (cancel_canceled p dls k d Hk).
    unfold p. apply bool_decide_eq_true. congruence. }
  destruct (download_file_shape fs (cancel p dls) url fname) as (o & evs & [E|E]);
    rewrite E.
  - split; [done|]. by apply focused_on_intro.
  - assert (Hwf2 : wf_downloads
      (<[dest := mk_download url dest false None]> (cancel p dls))).
    { intros k d Hk. destruct (decide (k = dest)) as [->|Hne].
      - rewrite lookup_insert_eq in Hk. by injection Hk as <-.
      - rewrite lookup_insert_ne in Hk by congruence. by apply Hwf1. }
    split; [done|]. apply focused_on_intro; [done|].
    intros k d Hk Hn. destruct (decide (k = dest)) as [->|Hne].
    + rewrite lookup_insert_eq in Hk. injection Hk as <-. by destruct Hn.
    + rewrite lookup_insert_ne in Hk by (unfold dest in *; congruence). by apply (Hc1 k).
Qed.

(** Claim C9: [focus_download(build_info)] always stores the computed destination
    of the build in [build_info['build_path']] (whether or not a download
    was started), keeping the other keys; this is the value that
    [_build_dl_finished] reads back to compare with a finished
    download's destination. *)
Theorem focus_download_sets_build_path (fs : gset string) (dls : downloads) (bi : build_info) :
  let '(_, bi', _) := focus_download fs dls bi in
  build_path bi' = Some (get_dest (extract_download_info (bi_fields bi)).2) /\
  bi_fields bi' = bi_fields bi /\
  (forall w, build_infos (bis w) = Some bi' ->
     get_build_path w = (w, inr (get_dest (extract_download_info (bi_fields bi)).2))).
Proof.
  unfold focus_download.
  destruct (extract_download_info (bi_fields bi)) as [url fname]; simpl.
  destruct (download_file fs _ url fname) as [[dls2 o] evs]; simpl.
  repeat split. intros w Hw. unfold get_build_path, get_bis, mbind, slot_bind.
  by rewrite Hw.
Qed.

(** ** The download-finished slot *)

(** Claim C4: [_build_dl_finished(dl)], with a focused build whose ['build_path']
    is [p]: a download for another destination is ignored, a cancelled
    or failed download for [p] is dropped, both with no effect at all;
    only a clean completion for [p] queues [_evaluate]. *)
Theorem build_dl_finished_filters (w : world) (bi : build_info) (p : string) (dl : download) :
  build_infos (bis w) = Some bi -> build_path bi = Some p ->
  (dl_dest dl <> p -> _build_dl_finished dl w = (w, inr tt)) /\
  (dl_dest dl = p -> dl_canceled dl = true \/ is_Some (dl_error dl) ->
     _build_dl_finished dl w = (w, inr tt)) /\
  (dl_dest dl = p -> dl_canceled dl = false -> dl_error dl = None ->
     _build_dl_finished dl w =
       (mk_world (bis w) (files w) (queue w ++ [TEvaluate]) (dialogs w) (trace w), inr tt)).
Proof.
  intros Hbi Hp.
  assert (Hget : get_build_path w = (w, inr p)).
  { unfold get_build_path, get_bis, mbind, slot_bind. by rewrite Hbi, Hp. }
  unfold _build_dl_finished, mbind, slot_bind. rewrite Hget.
  split; [|split].
  - intros Hne. destruct (String.eqb_spec (dl_dest dl) p); [done|]. reflexivity.
  - intros -> Hbad. rewrite String.eqb_refl. simpl.
    destruct Hbad as [-> | Hs]; [done|].
    rewrite (bool_decide_eq_true_2 _ Hs), orb_true_r. reflexivity.
  - intros -> Hc He. rewrite String.eqb_refl, Hc, He. reflexivity.
Qed.

(** ** The evaluation gate *)

(** Claim C6: [finish(verdict)] with no launcher in flight fails its assertion;
    with one, it stops the launcher, records the verdict, emits
    [evaluate_finished] and clears the launcher, so a second [finish] is
    rejected while a new [evaluate] is accepted and may be finished. *)
Theorem finish_requires_evaluate (tr : gui_test_runner) (v v' : string)
    (bi : option build_info) :
  (launcher tr = None -> tr_finish tr v = None) /\
  (forall l, launcher tr = Some l ->
     exists tr', tr_finish tr v = Some (tr', [ELauncherStop; EEvaluateFinished]) /\
       verdict tr' = Some v /\ launcher tr' = None /\
       tr_finish tr' v' = None /\
       (exists tr'' evs, tr_finish (tr_evaluate tr' bi).1 v' = Some (tr'', evs))) /\
  (exists tr' evs, tr_finish (tr_evaluate tr bi).1 v = Some (tr', evs)).
Proof.
  split; [|split].
  - intros Hl. unfold tr_finish. by rewrite Hl.
  - intros l Hl. unfold tr_finish. rewrite Hl. eexists. split; [reflexivity|].
    simpl. repeat split. eauto.
  - simpl. eauto.
Qed.

(** ** The evaluation dialog *)

Lemma foldl_deliver_bis (w : world) (evs : list event) :
  bis (foldl deliver w evs) = bis w.
Proof.
  revert w. induction evs as [|ev evs IH]; intros w; [done|].
  simpl. rewrite IH. by destruct ev.
Qed.

(** Claim C10: The dialog answer gives the verdict "g" exactly for Yes and "b" for
    any other answer, never another verdict; it is the verdict [finish]
    records when a launcher is in flight. *)
Theorem dialog_verdict_good_or_bad (res : standard_button) :
  (dialog_verdict res = "g" <-> res = Yes) /\
  (dialog_verdict res = "b" <-> res <> Yes) /\
  dialog_verdict res ∈ ["g"; "b"] /\
  (forall w l, launcher (test_runner (bis w)) = Some l ->
     verdict (test_runner (bis (runner_evaluate res w))) = Some (dialog_verdict res)).
Proof.
  assert (HY : dialog_verdict Yes = "g") by reflexivity.
  assert (HN : dialog_verdict No = "b") by reflexivity.
  split; [|split; [|split]].
  - destruct res; rewrite ?HY, ?HN; split; congruence.
  - destruct res; rewrite ?HY, ?HN; split; congruence.
  - destruct res; rewrite ?HY, ?HN; set_solver.
  - intros w l Hl. unfold runner_evaluate. simpl. unfold tr_finish. rewrite Hl.
    by rewrite foldl_deliver_bis.
Qed.

(** ** The run controller *)

(** Claim C7: [stop()] is a no-op with no bisector and no thread; calling it twice
    is the same as calling it once; afterwards neither a bisector nor a
    thread is retained, the thread has ended, and every download of the
    dropped bisector is cancelled. *)
Theorem stop_idempotent (r : bisect_runner) :
  (rbisector r = None -> rthread r = None -> stop r = r) /\
  stop (stop r) = stop r /\
  rbisector (stop r) = None /\ rthread (stop r) = None /\
  (forall t, rthread r = Some t -> t ∉ running (stop r)) /\
  (forall i b, rbisector r = Some i -> heap r !! i = Some b ->
     exists b', heap (stop r) !! i = Some b' /\ all_canceled (dm b')).
Proof.
  destruct r as [hp [i|] [t|] rn]; unfold stop; simpl;
    (split; [intros; discriminate || reflexivity|]);
    (split; [reflexivity|]); repeat split; try set_solver;
    intros i' b Hi Hb; try discriminate; injection Hi as <-.
  all: rewrite lookup_alter_eq, Hb; eexists; split; [reflexivity|].
  all: intros k d Hk; simpl in Hk; unfold cancel_all in Hk;
       by apply (cancel_canceled _ _ _ _ Hk).
Qed.

(** Claim C8: [bisection_finished] shows the "not enough data" warning for
    [NO_DATA], the error captured by the bisector for [EXCEPTION], and
    "The bisection is done." for any other code, and then runs [stop()]. *)
Theorem bisection_finished_outcomes (r : bisect_runner) (code : Z) :
  (code = NO_DATA ->
     bisection_finished r code =
       Some (mk_end_dialog Warning "Unable to find enough data to bisect.", stop r)) /\
  (forall i b e, code = EXCEPTION -> rbisector r = Some i -> heap r !! i = Some b ->
     error b = Some e ->
     bisection_finished r code =
       Some (mk_end_dialog Critical ("Error: " ++ exn_str e)%string, stop r)) /\
  (code <> NO_DATA -> code <> EXCEPTION ->
     bisection_finished r code =
       Some (mk_end_dialog Information "The bisection is done.", stop r)).
Proof.
  unfold bisection_finished. split; [|split].
  - intros ->. reflexivity.
  - intros i b e -> Hi Hb He. simpl. rewrite Hi. simpl. rewrite Hb. simpl.
    rewrite He. reflexivity.
  - intros H1 H2. apply Z.eqb_neq in H1, H2. rewrite H1, H2. reflexivity.
Qed.

(** ** Running the slots *)

Ltac unfold_slots :=
  unfold _bisect_next, _evaluate, _evaluate_finished, _build_dl_finished,
    get_build_path, call_search_mid_point, get_bisection, set_bisection,
    _finish_on_exception, try_moz, emit, emit_all, post, get_bis, set_bis,
    get_files, raise, mbind, slot_bind, mret, slot_ret in *.

Lemma step_indices_app (l1 l2 : list event) :
  step_indices (l1 ++ l2) = step_indices l1 ++ step_indices l2.
Proof. induction l1 as [|[] l1 IH]; simpl; by rewrite ?IH. Qed.

Lemma count_finished_app (l1 l2 : list event) :
  count_finished (l1 ++ l2) = count_finished l1 + count_finished l2.
Proof. induction l1 as [|[] l1 IH]; simpl; by rewrite ?IH. Qed.

Lemma deliver_trace (w : world) (ev : event) : trace (deliver w ev) = trace w ++ [ev].
Proof. by destruct ev. Qed.

Lemma deliver_bis (w : world) (ev : event) : bis (deliver w ev) = bis w.
Proof. by destruct ev. Qed.

Lemma foldl_deliver_trace (w : world) (evs : list event) :
  trace (foldl deliver w evs) = trace w ++ evs.
Proof.
  revert w. induction evs as [|ev evs IH]; intros w; simpl.
  - by rewrite app_nil_r.
  - rewrite IH, deliver_trace. by rewrite <- app_assoc.
Qed.

Lemma download_file_events fs dls url fname :
  (download_file fs dls url fname).2 = [] \/
  exists d, (download_file fs dls url fname).2 = [EDownloadStarted d].
Proof.
  unfold download_file.
  destruct (dls !! get_dest fname) as [dl|];
    [destruct (negb (dl_canceled dl))|]; repeat case_decide; simpl; eauto.
Qed.

Lemma focus_download_events fs dls (bi : build_info) :
  (focus_download fs dls bi).2 = [] \/
  exists d, (focus_download fs dls bi).2 = [EDownloadStarted d].
Proof.
  unfold focus_download.
  destruct (extract_download_info (bi_fields bi)) as [url fname].
  pose proof (download_file_events fs
    (cancel (fun dl => bool_decide (get_dest fname <> dl_dest dl)) dls) url fname) as Hev.
  destruct (download_file _ _ url fname) as [[dls2 o] evs]. exact Hev.
Qed.

(** ** Step indices *)

Ltac destruct_inner_match :=
  match goal with
  | |- context [match ?x with _ => _ end] =>
      lazymatch x with
      | context [match _ with _ => _ end] => fail
      | _ => let E := fresh "E" in destruct x eqn:E
      end
  end.

Ltac close_steps Hs :=
  rewrite ?step_indices_app, ?Hs; simpl; rewrite <- ?app_assoc, ?app_nil_r; reflexivity.

Lemma run_task_steps_numbered (t : task) (w : world) :
  steps_numbered w -> steps_numbered (fst (run_task t w)).
Proof.
  unfold steps_numbered. destruct w as [b fs q dg tr]; simpl. intros Hs.
  destruct t; simpl; unfold_slots; simpl.
  - destruct (bisection b) as [h|]; simpl; [|close_steps Hs].
    destruct (search_mid_point h) as [h1 [[e|e]|m]]; simpl; [close_steps Hs|close_steps Hs|].
    destruct (init_handler h1 m) as [h2 r]; simpl.
    destruct (negb (r =? RUNNING)%Z); simpl; [close_steps Hs|].
    pose proof (focus_download_events fs (dm b) (mk_build_info (handler_build_infos h2 m) None)) as Hev.
    destruct (focus_download fs _ _) as [[dls' bi'] evs]; simpl in *.
    destruct Hev as [->|[d ->]]; simpl; close_steps Hs.
  - repeat (simpl; destruct_inner_match); simpl; close_steps Hs.
  - repeat (simpl; destruct_inner_match); simpl; close_steps Hs.
  - repeat (simpl; destruct_inner_match); simpl; close_steps Hs.
Qed.

Lemma wstep_steps_numbered (w w' : world) :
  wstep w w' -> steps_numbered w -> steps_numbered w'.
Proof.
  intros Hst Hs. destruct Hst as [w t q Hq|w k d e Hk|w res Hd].
  - by apply run_task_steps_numbered.
  - unfold steps_numbered in *. unfold download_done. simpl.
    rewrite step_indices_app, Hs. simpl. by rewrite app_nil_r.
  - unfold steps_numbered in *. unfold runner_evaluate. simpl.
    destruct (tr_finish _ _) as [[tr' evs]|] eqn:E; simpl; [|done].
    unfold tr_finish in E. destruct (launcher _); [|discriminate].
    injection E as <- <-. simpl. rewrite !step_indices_app, Hs. simpl.
    by rewrite !app_nil_r.
Qed.

Lemma init_world_steps_numbered (h0 : H) (fs : gset string) :
  steps_numbered (init_world h0 fs).
Proof. reflexivity. Qed.

(** Claim C2: Along any run, the [step_started] signals carry the indices
    1, 2, 3, ... with no gap: [self._step_num] is 0 when the run starts
    and each step adds exactly 1 before signalling it. *)
Theorem step_started_indices (w : world) :
  reachable w -> step_indices (trace w) = upto (step_num (bis w)).
Proof.
  intros (h0 & fs & Hrt). change (steps_numbered w).
  generalize (init_world_steps_numbered h0 fs).
  induction Hrt as [w0|w1 w2 w3 Hst Hrt IH]; [done|].
  intros Hs. apply IH. by apply (wstep_steps_numbered w1).
Qed.

(** ** Phases of a run *)

Lemma cancel_empty (p : download -> bool) : cancel p ∅ = ∅.
Proof. unfold cancel. by rewrite fmap_empty. Qed.

Lemma focus_download_empty (fs : gset string) (bi : build_info) :
  let '(dls', _, evs) := focus_download fs ∅ bi in
  (dls' = ∅ /\ evs = []) \/
  (exists k d, dls' = {[k := d]} /\ evs = [EDownloadStarted d]).
Proof.
  unfold focus_download.
  destruct (extract_download_info (bi_fields bi)) as [url fname].
  rewrite cancel_empty. unfold download_file. rewrite lookup_empty.
  case_decide; simpl; [by left|]. right. rewrite insert_empty. eauto.
Qed.

Ltac close_leaf :=
  first [reflexivity | lia | eauto | (repeat case_decide; done)].

Ltac pick_phase :=
  first
    [ left; solve [repeat (first [split | eexists]); close_leaf]
    | right; pick_phase
    | solve [repeat (first [split | eexists]); close_leaf] ].

Ltac norm_cf Hcf := rewrite ?count_finished_app, ?Hcf; simpl.

Ltac finish_phase Hcf := unfold phase_inv; simpl; norm_cf Hcf; pick_phase.

Lemma wstep_phase_inv (w w' : world) :
  wstep w w' -> phase_inv w -> phase_inv w'.
Proof.
  intros Hst Hph.
  destruct Hst as [w t q Hq|w k d e Hk|w res Hdg];
    destruct w as [b fs qu dg tr]; unfold phase_inv in Hph; simpl in *.
  - destruct Hph as [(Hq' & Hdm & Hdg & Hcf)|[(Hq' & _ & _ & _)|
      [((d & Hq') & Hdm & Hdg & Hcf)|[(Hq' & Hdm & Hdg & Hcf)|[(Hq' & _)|
      [(Hq' & Hdm & Hdg & Hcf)|(Hq' & _)]]]]]];
      rewrite Hq' in Hq; try discriminate; injection Hq as <- <-; simpl;
      unfold_slots; simpl.
    + destruct (bisection b) as [h|]; simpl; [|finish_phase Hcf].
      destruct (search_mid_point h) as [h1 [[e|e]|m]]; simpl;
        [finish_phase Hcf|finish_phase Hcf|].
      destruct (init_handler h1 m) as [h2 r]; simpl.
      destruct (negb (r =? RUNNING)%Z); simpl; [finish_phase Hcf|].
      rewrite Hdm.
      pose proof (focus_download_empty fs (mk_build_info (handler_build_infos h2 m) None)) as Hf.
      destruct (focus_download fs _ _) as [[dls' bi'] evs].
      destruct Hf as [[-> ->]|(k & d & -> & ->)]; simpl; finish_phase Hcf.
    + repeat (simpl; destruct_inner_match); simpl; finish_phase Hcf.
    + repeat (simpl; destruct_inner_match); simpl; finish_phase Hcf.
    + repeat (simpl; destruct_inner_match); simpl; finish_phase Hcf.
  - unfold download_done; simpl.
    destruct Hph as [(_ & Hdm & _)|[(Hq' & (k' & d' & Hdm) & Hdg & Hcf)|
      [(_ & Hdm & _)|[(_ & Hdm & _)|[(_ & Hdm & _)|[(_ & Hdm & _)|(_ & Hdm & _)]]]]]];
      rewrite Hdm in Hk; try (rewrite lookup_empty in Hk; discriminate).
    apply lookup_singleton_Some in Hk as [<- <-].
    rewrite Hdm. subst qu dg. unfold phase_inv; simpl; norm_cf Hcf.
    rewrite delete_singleton. destruct (decide (k' = k')); [|congruence]. pick_phase.
  - unfold runner_evaluate; simpl.
    destruct Hph as [(_ & _ & Hdg' & _)|[(_ & _ & Hdg' & _)|
      [(_ & _ & Hdg' & _)|[(_ & _ & Hdg' & _)|[(Hq' & Hdm & Hdg' & (l & Hl) & Hcf)|
      [(_ & _ & Hdg' & _)|(_ & _ & Hdg' & _)]]]]]]; try lia.
    unfold tr_finish. rewrite Hl. simpl. subst. finish_phase Hcf.
Qed.

Lemma init_world_phase_inv (h0 : H) (fs : gset string) : phase_inv (init_world h0 fs).
Proof. unfold phase_inv. simpl. pick_phase. Qed.

Lemma reachable_phase_inv (w : world) : reachable w -> phase_inv w.
Proof.
  intros (h0 & fs & Hrt). generalize (init_world_phase_inv h0 fs).
  induction Hrt as [w0|w1 w2 w3 Hst Hrt IH]; [done|].
  intros Hp. apply IH. by apply (wstep_phase_inv w1).
Qed.

Lemma quiescent_no_step (w w' : world) :
  queue w = [] -> dm (bis w) = ∅ -> dialogs w = 0 -> ~ wstep w w'.
Proof.
  intros Hq Hdm Hdg Hst. destruct Hst as [w t q Hq'|w k d e Hk|w res Hd].
  - congruence.
  - rewrite Hdm, lookup_empty in Hk. discriminate.
  - lia.
Qed.

Lemma quiescent_wsteps (w w' : world) :
  queue w = [] -> dm (bis w) = ∅ -> dialogs w = 0 -> wsteps w w' -> w' = w.
Proof.
  intros Hq Hdm Hdg Hrt. destruct Hrt as [|w w2 w' Hst _]; [done|].
  exfalso. by apply (quiescent_no_step w w2).
Qed.

(** Before any [finished] signal, no error is stored: [self.error] is
    only set by [_finish_on_exception], which emits [finished] at once. *)
Definition no_error_before_finished (w : world) : Prop :=
  count_finished (trace w) = 0 -> error (bis w) = None.

Ltac close_err Herr :=
  let Hc := fresh "Hc" in
  intros Hc; rewrite ?count_finished_app in Hc; simpl in Hc;
  first [lia | apply Herr; lia].

Lemma run_task_no_error (t : task) (w : world) :
  no_error_before_finished w -> no_error_before_finished (fst (run_task t w)).
Proof.
  unfold no_error_before_finished. destruct w as [b fs q dg tr]; simpl. intros Herr.
  destruct t; simpl; unfold_slots; simpl.
  - destruct (bisection b) as [h|]; simpl; [|close_err Herr].
    destruct (search_mid_point h) as [h1 [[e|e]|m]]; simpl;
      [close_err Herr|close_err Herr|].
    destruct (init_handler h1 m) as [h2 r]; simpl.
    destruct (negb (r =? RUNNING)%Z); simpl; [close_err Herr|].
    pose proof (focus_download_events fs (dm b) (mk_build_info (handler_build_infos h2 m) None)) as Hev.
    destruct (focus_download fs _ _) as [[dls' bi'] evs]; simpl in *.
    destruct Hev as [->|[d ->]]; simpl; close_err Herr.
  - repeat (simpl; destruct_inner_match); simpl; close_err Herr.
  - repeat (simpl; destruct_inner_match); simpl; close_err Herr.
  - repeat (simpl; destruct_inner_match); simpl; close_err Herr.
Qed.

Lemma wstep_no_error (w w' : world) :
  wstep w w' -> no_error_before_finished w -> no_error_before_finished w'.
Proof.
  intros Hst Herr. destruct Hst as [w t q Hq|w k d e Hk|w res Hd].
  - apply run_task_no_error. exact Herr.
  - unfold no_error_before_finished in *. unfold download_done. simpl.
    close_err Herr.
  - unfold no_error_before_finished in *. unfold runner_evaluate. simpl.
    destruct (tr_finish _ _) as [[tr' evs]|] eqn:E; simpl; [|exact Herr].
    unfold tr_finish in E. destruct (launcher _); [|discriminate].
    injection E as <- <-. simpl. close_err Herr.
Qed.

Lemma reachable_no_error (w : world) : reachable w -> no_error_before_finished w.
Proof.
  intros (h0 & fs & Hrt).
  assert (H0 : no_error_before_finished (init_world h0 fs)) by (intros _; reflexivity).
  revert H0. induction Hrt as [w0|w1 w2 w3 Hst Hrt IH]; [done|].
  intros Hp. apply IH. by apply (wstep_no_error w1).
Qed.

(** ** Ending a run *)

(** Claim C5: If [init_handler] answers a code other than [RUNNING] at the first
    step, the run emits [started], [step_started(1)] and exactly one
    [finished] with that code, and then stops: no download is focused,
    no download is tracked and no launcher is started. *)
Theorem first_init_not_running (h0 h1 h2 : H) (m : M) (r : Z) (fs : gset string) :
  search_mid_point h0 = (h1, inr m) -> init_handler h1 m = (h2, r) -> r <> RUNNING ->
  (forall w, wsteps (init_world h0 fs) w ->
     trace w `prefix_of` [EStarted; EStepStarted 1; EFinished r] /\
     count_finished (trace w) <= 1 /\
     dm (bis w) = ∅ /\ build_infos (bis w) = None /\
     launcher (test_runner (bis w)) = None) /\
  (exists w, wsteps (init_world h0 fs) w /\
     trace w = [EStarted; EStepStarted 1; EFinished r] /\
     forall w', wsteps w w' -> w' = w).
Proof.
  intros Hs Hi Hr.
  set (w1 := fst (run_task TBisectNext
                    (mk_world (bis (init_world h0 fs)) fs [] 0 [EStarted]))).
  assert (Hw1 : queue w1 = [] /\ dm (bis w1) = ∅ /\ dialogs w1 = 0 /\
                trace w1 = [EStarted; EStepStarted 1; EFinished r] /\
                build_infos (bis w1) = None /\ launcher (test_runner (bis w1)) = None).
  { unfold w1. simpl. unfold_slots. simpl. rewrite Hs. simpl. rewrite Hi. simpl.
    apply Z.eqb_neq in Hr. rewrite Hr. simpl. repeat split. }
  destruct Hw1 as (Hq1 & Hdm1 & Hdg1 & Htr1 & Hbi1 & Hl1).
  assert (Hstep : forall w, wstep (init_world h0 fs) w -> w = w1).
  { intros w Hst. inversion Hst as [w0 t q Hq|w0 k d e Hk|w0 res Hd]; subst.
    - simpl in Hq. injection Hq as <- <-. reflexivity.
    - simpl in Hk. rewrite lookup_empty in Hk. discriminate.
    - simpl in Hd. lia. }
  split.
  - intros w Hrt. inversion Hrt as [|w0 w2 w3 Hst Hrt']; subst.
    + simpl. repeat split; [|lia]. by exists [EStepStarted 1; EFinished r].
    + apply Hstep in Hst. subst w2.
      rewrite (quiescent_wsteps w1 w Hq1 Hdm1 Hdg1 Hrt'), Htr1.
      repeat split; auto; simpl; lia.
  - exists w1. split; [|split; [done|]].
    + apply rtc_once. pose proof (WTask (init_world h0 fs) TBisectNext [] eq_refl) as Hst.
      exact Hst.
    + intros w' Hrt. by apply quiescent_wsteps.
Qed.

(** Claim C1 (as amended): When a step's [search_mid_point] raises a [MozRegressionError],
    the exception is stored in [self.error], [finished(EXCEPTION)] is
    emitted right after that step's [step_started], it is the only
    [finished] of the run, and the run stops: no later signal at all.
    When it raises an exception of any other class, at any step, the
    exception escapes [_bisect_next]: no error is stored, no [finished]
    signal is emitted, and the run stops after that [step_started]. *)
Theorem search_error_finishes (w w' : world) (h h' : H) (e : exn) :
  reachable w -> head (queue w) = Some TBisectNext -> bisection (bis w) = Some h ->
  search_mid_point h = (h', inl e) -> wstep w w' ->
  (forall msg, e = MozRegressionError msg ->
     error (bis w') = Some (MozRegressionError msg) /\
     trace w' = trace w ++ [EStepStarted (S (step_num (bis w))); EFinished EXCEPTION] /\
     count_finished (trace w') = 1 /\
     (forall w'', wsteps w' w'' -> w'' = w')) /\
  (forall msg, e = OtherError msg ->
     error (bis w') = None /\
     trace w' = trace w ++ [EStepStarted (S (step_num (bis w)))] /\
     count_finished (trace w') = 0 /\
     (forall w'', wsteps w' w'' -> w'' = w')).
Proof.
  intros Hr Hhd Hb Hs Hst.
  pose proof (reachable_phase_inv w Hr) as Hph.
  pose proof (reachable_no_error w Hr) as Herr.
  destruct w as [b fs qu dg tr]; unfold phase_inv, no_error_before_finished in *; simpl in *.
  destruct Hph as [(Hq & Hdm & Hdg & Hcf)|[(Hq & _)|
      [((d & Hq) & _)|[(Hq & _)|[(Hq & _)|[(Hq & _)|(Hq & _)]]]]]];
    rewrite Hq in Hhd; try discriminate.
  subst qu dg.
  assert (Hend : forall tr', count_finished (tr ++ tr') = count_finished tr') by
    (intros; by rewrite count_finished_app, Hcf).
  inversion Hst as [w0 t q Hq|w0 k d e' Hk|w0 res Hd]; subst; simpl in *.
  - injection Hq as <- <-. simpl. unfold_slots. simpl.
    rewrite Hb. simpl. rewrite Hs. simpl. split.
    + intros msg ->. simpl. repeat split.
      * by rewrite <- app_assoc.
      * by rewrite <- app_assoc, Hend.
      * intros w'' Hrt. by apply quiescent_wsteps.
    + intros msg ->. simpl. repeat split.
      * by apply Herr.
      * by rewrite Hend.
      * intros w'' Hrt. by apply quiescent_wsteps.
  - rewrite Hdm, lookup_empty in Hk. discriminate.
  - lia.
Qed.

(** A step whose [search_mid_point] raises an exception of another
    class than [MozRegressionError] is not caught by [_bisect_next]:
    the run stops with no [finished] signal and no error recorded. *)
Lemma first_search_other_error (h0 h1 : H) (msg : string) (fs : gset string) :
  search_mid_point h0 = (h1, inl (OtherError msg)) ->
  forall w, wsteps (init_world h0 fs) w ->
    count_finished (trace w) = 0 /\ error (bis w) = None.
Proof.
  intros Hs.
  set (w1 := fst (run_task TBisectNext
                    (mk_world (bis (init_world h0 fs)) fs [] 0 [EStarted]))).
  assert (Hw1 : queue w1 = [] /\ dm (bis w1) = ∅ /\ dialogs w1 = 0 /\
                count_finished (trace w1) = 0 /\ error (bis w1) = None).
  { unfold w1. simpl. unfold_slots. simpl. rewrite Hs. simpl. repeat split. }
  destruct Hw1 as (Hq1 & Hdm1 & Hdg1 & Hcf1 & He1).
  intros w Hrt. inversion Hrt as [|w0 w2 w3 Hst Hrt']; subst; [done|].
  inversion Hst as [w0 t q Hq|w0 k d e Hk|w0 res Hd]; subst.
  - simpl in Hq. injection Hq as <- <-.
    fold w1 in Hrt'. by rewrite (quiescent_wsteps w1 w Hq1 Hdm1 Hdg1 Hrt').
  - simpl in Hk. rewrite lookup_empty in Hk. discriminate.
  - simpl in Hd. lia.
Qed.


(** ** Whole runs: step_finished signals, verdicts, evaluated builds *)

Lemma finished_steps_app (l1 l2 : list event) :
  finished_steps (l1 ++ l2) = finished_steps l1 ++ finished_steps l2.
Proof. induction l1 as [|[] l1 IH]; simpl; by rewrite ?IH. Qed.

Lemma dialog_verdict_good (res : standard_button) : good_verdict (Some (dialog_verdict res)).
Proof. destruct res; [left|right]; reflexivity. Qed.

Ltac rinv_close :=
  repeat (first [split | eexists]);
  first [ assumption | reflexivity | lia | set_solver
        | (left; solve [rinv_close]) | (right; solve [rinv_close]) | eauto ].

Ltac rinv_norm :=
  rewrite ?finished_steps_app; simpl; rewrite ?map_app, ?app_nil_r; simpl.

Ltac rinv_head :=
  split; [rewrite ?Forall_app, ?Forall_singleton; rinv_close|split; [rinv_close|]].

Ltac ph1 := left.
Ltac ph2 := right; left.
Ltac ph3 := right; right; left.
Ltac ph4 := do 3 right; left.
Ltac ph5 := do 4 right; left.
Ltac ph6 := do 5 right; left.
Ltac ph7 := do 6 right.

Ltac rinv ph := rinv_norm; rinv_head; ph; rinv_close.

Lemma wstep_run_inv (w w' : world) : wstep w w' -> run_inv w -> run_inv w'.
Proof.
  intros Hst Hinv.
  destruct Hst as [w t q Hq|w k d e Hk|w res Hdg];
    destruct w as [b fs qu dg tr]; unfold run_inv in *; simpl in *;
    destruct Hinv as (HG & HV & Hph).
  - destruct Hph as [(Hq' & Hdm & Hdg & HF)|[(Hq' & _)|
      [((d & Hq' & Hlast & Hstart & Hfile) & Hdm & Hdg & HF & Hn)|
      [(Hq' & Hdm & Hdg & HF & Hn & Hbi)|[(Hq' & _)|
      [(Hq' & Hdm & Hdg & HgV & HF & Hn)|(Hq' & _)]]]]]];
      rewrite Hq' in Hq; try discriminate; injection Hq as <- <-; simpl;
      unfold_slots; simpl.
    + destruct (bisection b) as [h|]; simpl; [|rinv ph7].
      destruct (search_mid_point h) as [h1 [[e|e]|m]]; simpl; [rinv ph7|rinv ph7|].
      destruct (init_handler h1 m) as [h2 r]; simpl.
      destruct (negb (r =? RUNNING)%Z); simpl; [rinv ph7|].
      rewrite Hdm.
      pose proof (focus_download_empty fs (mk_build_info (handler_build_infos h2 m) None)) as Hf.
      destruct (focus_download fs _ _) as [[dls' bi'] evs].
      destruct Hf as [[-> ->]|(k & d & -> & ->)]; simpl; [rinv ph7|rinv ph2].
    + destruct (build_infos b) as [bi|] eqn:Ebi; simpl; [|rinv ph7].
      destruct (build_path bi) as [p|] eqn:Ep; simpl; [|rinv ph7].
      destruct (String.eqb_spec (dl_dest d) p) as [Hdp|Hdp]; simpl; [|rinv ph7].
      destruct (dl_canceled d || bool_decide (is_Some (dl_error d))) eqn:Ebad;
        simpl; [rinv ph7|].
      apply orb_false_iff in Ebad as [Hc Herr].
      apply bool_decide_eq_false in Herr.
      assert (He : dl_error d = None) by (destruct (dl_error d); [by destruct Herr|done]).
      subst p. specialize (Hfile He).
      rinv_norm; rinv_head; ph4.
      do 5 (split; [rinv_close|]).
      exists bi, (dl_dest d), d. by repeat split.
    + destruct (bisection b) as [h|]; simpl; [|rinv ph7].
      rinv ph5.
    + destruct (bisection b) as [h|]; simpl; [|rinv ph7].
      assert (HF' : map fst (finished_steps tr) ++ [step_num b] = upto (step_num b)).
      { destruct (step_num b) as [|n]; [lia|]. simpl in HF. by rewrite HF. }
      destruct (handle_verdict _ _ _) as [h2 r]; simpl.
      destruct (negb (r =? RUNNING)%Z); simpl; [rinv ph7|rinv ph1].
  - unfold download_done; simpl.
    destruct Hph as [(_ & Hdm & _)|[(Hq' & (k' & d' & Hdm & Hst0) & Hdg & HF & Hn)|
      [(_ & Hdm & _)|[(_ & Hdm & _)|[(_ & Hdm & _)|[(_ & Hdm & _)|(_ & Hdm & _)]]]]]];
      rewrite Hdm in Hk; try (rewrite lookup_empty in Hk; discriminate).
    apply lookup_singleton_Some in Hk as [<- <-].
    rewrite Hdm. subst qu dg.
    rewrite delete_singleton. destruct (decide (k' = k')); [|congruence].
    rinv_norm; rinv_head. ph3. split; [|rinv_close].
    eexists. split; [reflexivity|]. split; [by rewrite last_snoc|].
    split; [exists d'; split; [set_solver|reflexivity]|].
    simpl. intros ->. set_solver.
  - unfold runner_evaluate; simpl.
    destruct Hph as [(_ & _ & Hdg' & _)|[(_ & _ & Hdg' & _)|
      [(_ & _ & Hdg' & _)|[(_ & _ & Hdg' & _)|[(Hq' & Hdm & Hdg' & (l & Hl) & HF & Hn)|
      [(_ & _ & Hdg' & _)|(_ & _ & Hdg' & _)]]]]]]; try lia.
    unfold tr_finish. rewrite Hl. simpl. subst.
    pose proof (dialog_verdict_good res) as Hgood.
    rinv ph6.
Qed.

Lemma init_world_run_inv (h0 : H) (fs : gset string) : run_inv (init_world h0 fs).
Proof. unfold run_inv. simpl. rinv_head. ph1. rinv_close. Qed.

Lemma reachable_run_inv (w : world) : reachable w -> run_inv w.
Proof.
  intros (h0 & fs & Hrt). generalize (init_world_run_inv h0 fs).
  induction Hrt as [w0|w1 w2 w3 Hst Hrt IH]; [done|].
  intros Hp. apply IH. by apply (wstep_run_inv w1).
Qed.

(** Extra X1: Along any run, the [step_finished] signals carry the step
    indices 1, 2, ..., k with no gap or repetition, where k is the
    current step or, while that step is under way or stalled, the step
    before it. *)
Theorem step_finished_indices (w : world) :
  reachable w ->
  let F := map fst (finished_steps (trace w)) in
  F = upto (step_num (bis w)) \/
  (F = upto (pred (step_num (bis w))) /\ 1 <= step_num (bis w)).
Proof.
  intros Hr. destruct (reachable_run_inv w Hr) as (_ & _ & Hph). simpl.
  destruct Hph as [(_ & _ & _ & HF)|[(_ & _ & _ & HF & Hn)|[(_ & _ & _ & HF & Hn)|
    [(_ & _ & _ & HF & Hn & _)|[(_ & _ & _ & _ & HF & Hn)|[(_ & _ & _ & _ & HF & Hn)|
    (_ & _ & _ & HF)]]]]]]; auto.
Qed.

(** Extra X2: Along any run, every [step_finished] signal carries the
    verdict "g" or "b" from the evaluation dialog, never [None]. *)
Theorem step_finished_verdicts (w : world) :
  reachable w -> Forall good_verdict (map snd (finished_steps (trace w))).
Proof. intros Hr. apply (reachable_run_inv w Hr). Qed.

(** Extra X3: Whenever [_evaluate] is queued, the build being evaluated
    is the one whose own download completed without error: a download
    for its ['build_path'] was started during the run, and the last
    signal is the [download_finished] of a download for that path,
    neither cancelled nor failed, whose file is on disk. *)
Theorem evaluate_only_downloaded (w : world) (q : list task) :
  reachable w -> queue w = TEvaluate :: q ->
  exists bi p d, build_infos (bis w) = Some bi /\ build_path bi = Some p /\
    last (trace w) = Some (EDownloadFinished d) /\ dl_dest d = p /\
    dl_canceled d = false /\ dl_error d = None /\ p ∈ files w /\
    exists d0, EDownloadStarted d0 ∈ trace w /\ dl_dest d0 = p.
Proof.
  intros Hr Hq. destruct (reachable_run_inv w Hr) as (_ & _ & Hph).
  destruct Hph as [(Hq' & _)|[(Hq' & _)|[((d & Hq' & _) & _)|
    [(Hq' & _ & _ & _ & _ & Hbi)|[(Hq' & _)|[(Hq' & _)|(Hq' & _)]]]]]];
    rewrite Hq' in Hq; try discriminate; exact Hbi.
Qed.

(** Extra X4: A run emits [finished] at most once. *)
Theorem finished_at_most_once (w : world) :
  reachable w -> count_finished (trace w) <= 1.
Proof.
  intros Hr. pose proof (reachable_phase_inv w Hr) as Hph. unfold phase_inv in Hph.
  destruct Hph as [(_ & _ & _ & Hcf)|[(_ & _ & _ & Hcf)|[(_ & _ & _ & Hcf)|
    [(_ & _ & _ & Hcf)|[(_ & _ & _ & _ & Hcf)|[(_ & _ & _ & Hcf)|(_ & _ & _ & Hcf)]]]]]];
    lia.
Qed.

(** Extra X5: Once [finished] has been emitted, the run is over: no slot
    is queued, no download is tracked, no dialog is pending, and no
    further step of the program is possible. *)
Theorem finished_is_final (w : world) :
  reachable w -> 1 <= count_finished (trace w) ->
  queue w = [] /\ dm (bis w) = ∅ /\ dialogs w = 0 /\
  forall w', wsteps w w' -> w' = w.
Proof.
  intros Hr Hc. pose proof (reachable_phase_inv w Hr) as Hph. unfold phase_inv in Hph.
  destruct Hph as [(_ & _ & _ & Hcf)|[(_ & _ & _ & Hcf)|[(_ & _ & _ & Hcf)|
    [(_ & _ & _ & Hcf)|[(_ & _ & _ & _ & Hcf)|[(_ & _ & _ & Hcf)|(Hq & Hdm & Hdg & _)]]]]]];
    try lia.
  repeat split; auto. intros w' Hrt. by apply quiescent_wsteps.
Qed.

(** Extra X6: Along any run, the download manager tracks at most one
    download at a time. *)
Theorem one_download_tracked (w : world) (k1 k2 : string) (d1 d2 : download) :
  reachable w -> dm (bis w) !! k1 = Some d1 -> dm (bis w) !! k2 = Some d2 ->
  k1 = k2 /\ d1 = d2.
Proof.
  intros Hr H1 H2. pose proof (reachable_phase_inv w Hr) as Hph. unfold phase_inv in Hph.
  destruct Hph as [(_ & Hdm & _)|[(_ & (k & d & Hdm) & _)|[(_ & Hdm & _)|
    [(_ & Hdm & _)|[(_ & Hdm & _)|[(_ & Hdm & _)|(_ & Hdm & _)]]]]]];
    rewrite Hdm in H1, H2; try (rewrite lookup_empty in H1; discriminate).
  apply lookup_singleton_Some in H1 as [<- <-].
  apply lookup_singleton_Some in H2 as [<- <-]. done.
Qed.

(** Extra X7: Along any run, at most one evaluation dialog is pending,
    and while it is, a launcher is in flight: the user's answer never
    hits the assertion of [finish], whatever the verdict. *)
Theorem answer_finds_launcher (w : world) :
  reachable w -> 0 < dialogs w ->
  dialogs w = 1 /\ (exists l, launcher (test_runner (bis w)) = Some l) /\
  forall v, exists tr' evs, tr_finish (test_runner (bis w)) v = Some (tr', evs).
Proof.
  intros Hr Hd. pose proof (reachable_phase_inv w Hr) as Hph. unfold phase_inv in Hph.
  destruct Hph as [(_ & _ & Hdg & _)|[(_ & _ & Hdg & _)|[(_ & _ & Hdg & _)|
    [(_ & _ & Hdg & _)|[(_ & _ & Hdg & (l & Hl) & _)|[(_ & _ & Hdg & _)|(_ & _ & Hdg & _)]]]]]];
    try lia.
  split; [done|]. split; [by exists l|].
  intros v. unfold tr_finish. rewrite Hl. eauto.
Qed.

Lemma dropped_download_step (w w2 : world) (d : download) :
  queue w = [TBuildDlFinished d] -> dm (bis w) = ∅ -> dialogs w = 0 ->
  is_Some (dl_error d) -> wstep w w2 ->
  queue w2 = [] /\ dm (bis w2) = ∅ /\ dialogs w2 = 0 /\ trace w2 = trace w.
Proof.
  intros Hq Hdm Hdg Herr Hst.
  destruct Hst as [w t q Hq'|w k d0 e Hk|w res Hd].
  - rewrite Hq in Hq'. injection Hq' as <- <-.
    destruct w as [b fs qu dg tr]; simpl in *; subst. unfold_slots.
    assert (Hb : dl_canceled d || bool_decide (is_Some (dl_error d)) = true)
      by (rewrite bool_decide_eq_true_2 by done; apply orb_true_r).
    repeat (simpl; destruct_inner_match); simpl; try (by repeat split);
      congruence.
  - rewrite Hdm, lookup_empty in Hk. discriminate.
  - lia.
Qed.

(** Extra X8: When the download of the focused build fails,
    [_build_dl_finished] drops it ("todo handle this"): the run then
    stalls for good, with no evaluation and no [finished] signal. *)
Theorem failed_download_stalls (w : world) (k : string) (d : download) (err : string) :
  reachable w -> dm (bis w) !! k = Some d ->
  forall w', wsteps (download_done k d (Some err) w) w' ->
  trace w' = trace w ++ [EDownloadFinished (mk_download (dl_url d) (dl_dest d) (dl_canceled d) (Some err))] /\
  count_finished (trace w') = 0.
Proof.
  intros Hr Hk. pose proof (reachable_phase_inv w Hr) as Hph.
  destruct w as [b fs qu dg tr]; unfold phase_inv in Hph; simpl in *.
  destruct Hph as [(_ & Hdm & _)|[(Hq & (k' & d' & Hdm) & Hdg & Hcf)|
    [(_ & Hdm & _)|[(_ & Hdm & _)|[(_ & Hdm & _)|[(_ & Hdm & _)|(_ & Hdm & _)]]]]]];
    rewrite Hdm in Hk; try (rewrite lookup_empty in Hk; discriminate).
  apply lookup_singleton_Some in Hk as [-> ->]. subst qu dg.
  set (d' := mk_download (dl_url d) (dl_dest d) (dl_canceled d) (Some err)).
  set (w1 := download_done k d (Some err) (mk_world b fs [] 0 tr)).
  assert (Hw1 : queue w1 = [TBuildDlFinished d'] /\ dm (bis w1) = ∅ /\ dialogs w1 = 0 /\
                trace w1 = tr ++ [EDownloadFinished d']).
  { unfold w1, download_done. simpl. rewrite Hdm, delete_singleton.
    destruct (decide (k = k)); [|congruence]. by repeat split. }
  destruct Hw1 as (Hq1 & Hdm1 & Hdg1 & Htr1).
  assert (Hc : count_finished (tr ++ [EDownloadFinished d']) = 0)
    by (rewrite count_finished_app, Hcf; reflexivity).
  intros w' Hrt. fold w1 in Hrt. destruct Hrt as [|w1' w2 w' Hst Hrt'].
  { rewrite Htr1. by split. }
  destruct (dropped_download_step w1' w2 d' Hq1 Hdm1 Hdg1 (ex_intro _ err eq_refl) Hst)
    as (Hq2 & Hdm2 & Hdg2 & Htr2).
  rewrite (quiescent_wsteps w2 w' Hq2 Hdm2 Hdg2 Hrt'), Htr2, Htr1. by split.
Qed.

(** ** Focusing, restarting, and the bisect slot *)

Lemma cancel_dest_idem (dest : string) (dls : downloads) :
  let p := fun dl => bool_decide (dest <> dl_dest dl) in
  cancel p (cancel p dls) = cancel p dls.
Proof.
  intros p. apply map_eq. intros k. rewrite !lookup_cancel.
  destruct (dls !! k) as [dl|]; simpl; [|done]. f_equal. unfold p.
  destruct (bool_decide (dest <> dl_dest dl)) eqn:Hp, (dl_canceled dl) eqn:Hc;
    simpl; rewrite ?Hp, ?Hc; simpl; rewrite ?andb_false_r; reflexivity.
Qed.

Lemma cancel_insert_dest (dest url : string) (dls : downloads) :
  let p := fun dl => bool_decide (dest <> dl_dest dl) in
  cancel p (<[dest := mk_download url dest false None]> dls) =
  <[dest := mk_download url dest false None]> (cancel p dls).
Proof.
  intros p. unfold cancel. rewrite fmap_insert. f_equal. simpl.
  unfold p. rewrite bool_decide_eq_false_2; [reflexivity|]. intros Hn. by apply Hn.
Qed.

(** Extra X9: [focus_download] is idempotent: focusing the same build
    again changes no tracked download, starts none, and stores the same
    ['build_path']. *)
Theorem focus_download_idempotent (fs : gset string) (dls : downloads) (bi : build_info) :
  let '(dls1, bi1, _) := focus_download fs dls bi in
  focus_download fs dls1 bi = (dls1, bi1, []).
Proof.
  unfold focus_download.
  destruct (extract_download_info (bi_fields bi)) as [url fname]; simpl.
  set (dest := get_dest fname).
  set (p := fun dl => bool_decide (dest <> dl_dest dl)).
  pose proof (cancel_dest_idem dest dls) as Hidem. fold p in Hidem.
  pose proof (cancel_insert_dest dest url (cancel p dls)) as Hins. fold p in Hins.
  unfold download_file. fold dest.
  destruct (cancel p dls !! dest) as [dl|] eqn:E.
  - destruct (dl_canceled dl) eqn:Hc; simpl.
    + case_decide; simpl.
      * rewrite Hidem, E, Hc. simpl. by rewrite ?decide_True.
      * rewrite Hins, Hidem, lookup_insert_eq. reflexivity.
    + rewrite Hidem, E, Hc. reflexivity.
  - case_decide; simpl.
    + rewrite Hidem, E. simpl. by rewrite ?decide_True.
    + rewrite Hins, Hidem, lookup_insert_eq. reflexivity.
Qed.

(** Extra X10: [BisectRunner.bisect] first tears the previous run down
    (its downloads are cancelled, its thread has ended), then installs a
    fresh bisector on a new thread; the thread is started exactly when
    the options name a bisection range. *)
Theorem runner_bisect_replaces_run (r : bisect_runner) (i t : nat) (options : gmap string string) :
  heap r !! i = None -> t ∉ running r -> rthread r <> Some t ->
  let '(r', res) := runner_bisect r i t options in
  rbisector r' = Some i /\ heap r' !! i = Some new_gui_bisector /\ rthread r' = Some t /\
  (forall j b, rbisector r = Some j -> heap r !! j = Some b ->
     exists b', heap r' !! j = Some b' /\ all_canceled (dm b')) /\
  (forall t0, rthread r = Some t0 -> t0 ∉ running r') /\
  (t ∈ running r' <-> exists a, res = inr a).
Proof.
  intros Hi Ht Hrt.
  assert (Hstop : rbisector (stop r) = None /\ rthread (stop r) = None /\
                  (forall j, heap (stop r) !! j = None <-> heap r !! j = None) /\
                  (forall j b, rbisector r = Some j -> heap r !! j = Some b ->
                     exists b', heap (stop r) !! j = Some b' /\ all_canceled (dm b')) /\
                  (forall t0, rthread r = Some t0 -> t0 ∉ running (stop r)) /\
                  running (stop r) ⊆ running r).
  { destruct r as [hp [i0|] [t0|] rn]; unfold stop; simpl.
    all: split; [done|]; split; [done|].
    all: split; [intros j; try (destruct (decide (i0 = j)) as [->|Hne];
                   [rewrite lookup_alter_eq|rewrite lookup_alter_ne by done]);
                 destruct (hp !! j); simpl; split; congruence|].
    all: split; [intros j b Hj Hb; try discriminate; injection Hj as <-;
                 rewrite lookup_alter_eq, Hb; eexists; (split; [reflexivity|]);
                 intros k d Hk; simpl in Hk; unfold cancel_all in Hk;
                 by apply (cancel_canceled _ _ _ _ Hk)|].
    all: split; [intros t1 Ht1; try discriminate; injection Ht1 as <-; set_solver|set_solver]. }
  destruct Hstop as (Hb0 & Ht0 & Hdom & Hcan & Hquit & Hsub).
  assert (Hi' : heap (stop r) !! i = None) by (by apply Hdom).
  assert (Hts : t ∉ running (stop r)) by set_solver.
  assert (Hold : forall j b, rbisector r = Some j -> heap r !! j = Some b ->
     exists b', <[i := new_gui_bisector]> (heap (stop r)) !! j = Some b' /\ all_canceled (dm b')).
  { intros j b Hj Hb. destruct (Hcan j b Hj Hb) as (b' & Hb' & Hc).
    exists b'. split; [|done]. rewrite lookup_insert_ne; [done|].
    intros ->. congruence. }
  assert (Hquit' : forall t0, rthread r = Some t0 -> t0 ∉ {[t]} ∪ running (stop r)).
  { intros t0 Ht0' Hin. apply elem_of_union in Hin as [Hin|Hin].
    - apply elem_of_singleton in Hin. congruence.
    - by apply (Hquit t0). }
  unfold runner_bisect.
  destruct (options !! "bisect_type") as [ty|]; simpl;
    [destruct (String.eqb ty "nightlies"); simpl;
     (destruct (options !! _) as [s|]; simpl;
      [destruct (options !! _) as [e|]; simpl|])|].
  all: repeat split;
    first [ reflexivity | by rewrite lookup_insert_eq | exact Hold | exact Hquit
          | exact Hquit' | (intros [? ?]; discriminate) | (intros Hin; set_solver)
          | (intros _; eexists; reflexivity) | (intros _; set_solver) ].
Qed.


Lemma reachable_step (w w' : world) : reachable w -> wstep w w' -> reachable w'.
Proof.
  intros (h0 & fs & Hrt) Hst. exists h0, fs. eapply rtc_r; [exact Hrt|exact Hst].
Qed.

End Proofs.

(** * Witnesses and counterexample on the concrete instance *)

#[local] Existing Instance ex_collab.

Lemma ex_task_step (w : world) : queue w <> [] -> wstep w (ex_task w).
Proof.
  intros Hq. unfold ex_task. destruct (queue w) as [|t q] eqn:E; [done|].
  exact (WTask w t q E).
Qed.

Lemma ex_dl_step (e : option string) (w : world) :
  map_to_list (dm (bis w)) <> [] -> wstep w (ex_dl e w).
Proof.
  intros Hm. unfold ex_dl. destruct (map_to_list (dm (bis w))) as [|[k d] l] eqn:E; [done|].
  apply WDownload. apply elem_of_map_to_list. rewrite E. left.
Qed.

Lemma ex_runs_reachable :
  reachable (ex_task (ex_world 3)) /\ reachable ex_eval_queued /\
  reachable ex_dialog_open /\ reachable ex_done.
Proof.
  assert (R0 : reachable (ex_world 3)) by (exists 3, ∅; apply rtc_refl).
  assert (R1 : reachable (ex_task (ex_world 3)))
    by (apply (reachable_step _ _ R0), ex_task_step; vm_compute; discriminate).
  assert (R2 : reachable (ex_dl None (ex_task (ex_world 3))))
    by (apply (reachable_step _ _ R1), ex_dl_step; vm_compute; discriminate).
  assert (R3 : reachable ex_eval_queued)
    by (apply (reachable_step _ _ R2), ex_task_step; vm_compute; discriminate).
  assert (R4 : reachable ex_dialog_open)
    by (apply (reachable_step _ _ R3), ex_task_step; vm_compute; discriminate).
  assert (R5 : reachable (runner_evaluate Yes ex_dialog_open))
    by (apply (reachable_step _ _ R4), WAnswer; vm_compute; lia).
  assert (R6 : reachable ex_done)
    by (apply (reachable_step _ _ R5), ex_task_step; vm_compute; discriminate).
  tauto.
Qed.

Lemma ex_round_reachable (w : world) :
  reachable w -> queue w <> [] ->
  map_to_list (dm (bis (ex_task w))) <> [] ->
  queue (ex_dl None (ex_task w)) <> [] ->
  queue (ex_task (ex_dl None (ex_task w))) <> [] ->
  0 < dialogs (ex_task (ex_task (ex_dl None (ex_task w)))) ->
  queue (runner_evaluate Yes (ex_task (ex_task (ex_dl None (ex_task w))))) <> [] ->
  reachable (ex_round w).
Proof.
  intros R H1 H2 H3 H4 H5 H6. unfold ex_round.
  assert (R1 := reachable_step _ _ R (ex_task_step _ H1)).
  assert (R2 := reachable_step _ _ R1 (ex_dl_step None _ H2)).
  assert (R3 := reachable_step _ _ R2 (ex_task_step _ H3)).
  assert (R4 := reachable_step _ _ R3 (ex_task_step _ H4)).
  assert (R5 := reachable_step _ _ R4 (WAnswer _ Yes H5)).
  exact (reachable_step _ _ R5 (ex_task_step _ H6)).
Qed.

Ltac ex_side :=
  first [ (let Hn := fresh "Hn" in intros Hn; vm_compute in Hn; discriminate)
        | (vm_compute; lia) ].

Lemma ex_longer_runs_reachable :
  reachable ex_two_steps /\ reachable (ex_round (ex_world 5)) /\
  reachable (ex_round (ex_world 6)).
Proof.
  assert (Hw : forall h, reachable (ex_world h)) by (intros h; exists h, ∅; apply rtc_refl).
  assert (R4 : reachable (ex_round (ex_world 4)))
    by (apply ex_round_reachable; [apply Hw|..]; ex_side).
  split; [|split].
  - apply ex_round_reachable; [exact R4|..]; ex_side.
  - apply ex_round_reachable; [apply Hw|..]; ex_side.
  - apply ex_round_reachable; [apply Hw|..]; ex_side.
Qed.

Lemma search_error_finishes_witness :
  reachable (ex_world 0) /\ wstep (ex_world 0) (ex_next (ex_world 0)) /\
  error (bis (ex_next (ex_world 0))) = Some (MozRegressionError "no build to bisect") /\
  count_finished (trace (ex_next (ex_world 0))) = 1 /\
  step_num (bis (ex_round (ex_world 6))) = 1 /\
  error (bis (ex_task (ex_round (ex_world 6)))) = Some (MozRegressionError "no build to bisect") /\
  count_finished (trace (ex_task (ex_round (ex_world 6)))) = 1 /\
  step_num (bis (ex_round (ex_world 5))) = 1 /\
  error (bis (ex_task (ex_round (ex_world 5)))) = None /\
  count_finished (trace (ex_task (ex_round (ex_world 5)))) = 0.
Proof.
  assert (Hr : reachable (ex_world 0)) by (exists 0, ∅; apply rtc_refl).
  assert (Hst : wstep (ex_world 0) (ex_next (ex_world 0)))
    by exact (WTask (ex_world 0) TBisectNext [] eq_refl).
  destruct (proj1 (search_error_finishes (ex_world 0) (ex_next (ex_world 0)) 0 0 _
              Hr eq_refl eq_refl eq_refl Hst) "no build to bisect" eq_refl)
    as (He & _ & Hc & _).
  destruct ex_longer_runs_reachable as (_ & R5 & R6).
  assert (Hq6 : head (queue (ex_round (ex_world 6))) = Some TBisectNext) by (vm_compute; reflexivity).
  assert (Hb6 : bisection (bis (ex_round (ex_world 6))) = Some 0) by (vm_compute; reflexivity).
  assert (Hst6 : wstep (ex_round (ex_world 6)) (ex_task (ex_round (ex_world 6))))
    by (apply ex_task_step; ex_side).
  destruct (proj1 (search_error_finishes (ex_round (ex_world 6)) (ex_task (ex_round (ex_world 6))) 0 0 _ R6 Hq6 Hb6 eq_refl Hst6)
              "no build to bisect" eq_refl) as (He6 & _ & Hc6 & _).
  assert (Hq5 : head (queue (ex_round (ex_world 5))) = Some TBisectNext) by (vm_compute; reflexivity).
  assert (Hb5 : bisection (bis (ex_round (ex_world 5))) = Some 1) by (vm_compute; reflexivity).
  assert (Hst5 : wstep (ex_round (ex_world 5)) (ex_task (ex_round (ex_world 5))))
    by (apply ex_task_step; ex_side).
  destruct (proj2 (search_error_finishes (ex_round (ex_world 5)) (ex_task (ex_round (ex_world 5))) 1 1 _ R5 Hq5 Hb5 eq_refl Hst5)
              "KeyError" eq_refl) as (He5 & _ & Hc5 & _).
  split; [exact Hr|]. split; [exact Hst|]. split; [exact He|]. split; [exact Hc|].
  split; [vm_compute; reflexivity|]. split; [exact He6|]. split; [exact Hc6|].
  split; [vm_compute; reflexivity|]. split; [exact He5|exact Hc5].
Defined.

Lemma step_started_indices_witness :
  reachable ex_two_steps /\ step_indices (trace ex_two_steps) = [1; 2].
Proof.
  destruct ex_longer_runs_reachable as (R & _ & _).
  split; [exact R|].
  rewrite (step_started_indices _ R). vm_compute. reflexivity.
Defined.

Lemma step_finished_indices_witness :
  reachable ex_two_steps /\ map fst (finished_steps (trace ex_two_steps)) = [1; 2] /\
  (map fst (finished_steps (trace ex_two_steps)) = upto (step_num (bis ex_two_steps)) \/
   (map fst (finished_steps (trace ex_two_steps)) = upto (pred (step_num (bis ex_two_steps))) /\
    1 <= step_num (bis ex_two_steps))).
Proof.
  destruct ex_longer_runs_reachable as (R & _ & _).
  split; [exact R|]. split; [vm_compute; reflexivity|].
  exact (step_finished_indices ex_two_steps R).
Defined.

(** The evaluation of the second step of [ex_two_steps] is queued. *)
Lemma evaluate_only_downloaded_witness :
  let w := ex_task (ex_dl None (ex_task (ex_round (ex_world 4)))) in
  reachable w /\ queue w = [TEvaluate] /\
  exists bi p d, build_infos (bis w) = Some bi /\ build_path bi = Some p /\
    last (trace w) = Some (EDownloadFinished d) /\ dl_dest d = p /\
    dl_canceled d = false /\ dl_error d = None /\ p ∈ files w /\
    exists d0, EDownloadStarted d0 ∈ trace w /\ dl_dest d0 = p.
Proof.
  intros w.
  assert (Hw : forall h, reachable (ex_world h)) by (intros h; exists h, ∅; apply rtc_refl).
  assert (R4 : reachable (ex_round (ex_world 4)))
    by (apply ex_round_reachable; [apply Hw|..]; ex_side).
  assert (R1 : reachable (ex_task (ex_round (ex_world 4))))
    by (apply (reachable_step _ _ R4), ex_task_step; ex_side).
  assert (R2 : reachable (ex_dl None (ex_task (ex_round (ex_world 4)))))
    by (apply (reachable_step _ _ R1), ex_dl_step; ex_side).
  assert (R : reachable w) by (apply (reachable_step _ _ R2), ex_task_step; ex_side).
  assert (Hq : queue w = [TEvaluate]) by (vm_compute; reflexivity).
  split; [exact R|]. split; [exact Hq|].
  exact (evaluate_only_downloaded w [] R Hq).
Defined.


(** Claim C1 fails as stated: a [KeyError] raised by [search_mid_point]
    at the first step yields no [finished] signal and no stored error. *)
Lemma search_other_error_not_finished :
  (@search_mid_point ex_collab 1).2 = inl (OtherError "KeyError") /\
  forall w, wsteps (ex_world 1) w ->
    count_finished (trace w) = 0 /\ error (bis w) = None.
Proof.
  split; [reflexivity|].
  intros w Hrt. exact (first_search_other_error 1 1 "KeyError" ∅ eq_refl w Hrt).
Qed.


Lemma first_init_not_running_witness :
  (@search_mid_point ex_collab 2 = (2, inr 2) /\
   @init_handler ex_collab 2 2 = (2, NO_DATA) /\ NO_DATA <> RUNNING) /\
  exists w, wsteps (ex_world 2) w /\
    trace w = [EStarted; EStepStarted 1; EFinished NO_DATA] /\
    forall w', wsteps w w' -> w' = w.
Proof.
  assert (Hne : NO_DATA <> RUNNING) by (unfold NO_DATA, RUNNING; lia).
  split; [split; [reflexivity|split; [reflexivity|exact Hne]]|].
  exact (proj2 (first_init_not_running 2 2 2 2 NO_DATA ∅ eq_refl eq_refl Hne)).
Defined.

Lemma focus_download_focused_witness :
  let dls0 : downloads := {["/tmp/old.tar.bz2" :=
        mk_download "http://archive/old.tar.bz2" "/tmp/old.tar.bz2" false None]} in
  wf_downloads dls0 /\
  let '(dls', _, _) := focus_download ∅ dls0 (mk_build_info "firefox.tar.bz2" None) in
  wf_downloads dls' /\ focused_on "/tmp/firefox.tar.bz2" dls'.
Proof.
  intros dls0.
  assert (Hwf : wf_downloads dls0).
  { intros k d Hk. apply lookup_singleton_Some in Hk as [<- <-]. reflexivity. }
  split; [exact Hwf|].
  exact (focus_download_focused ∅ dls0 (mk_build_info "firefox.tar.bz2" None) Hwf).
Defined.

Lemma focus_download_sets_build_path_witness :
  build_infos (bis (ex_next (ex_world 3))) =
    Some (mk_build_info "firefox.tar.bz2" (Some "/tmp/firefox.tar.bz2")) /\
  get_build_path (ex_next (ex_world 3)) =
    (ex_next (ex_world 3), inr "/tmp/firefox.tar.bz2").
Proof.
  assert (Hbi : build_infos (bis (ex_next (ex_world 3))) =
                Some (mk_build_info "firefox.tar.bz2" (Some "/tmp/firefox.tar.bz2")))
    by (vm_compute; reflexivity).
  split; [exact Hbi|].
  exact (proj2 (proj2 (focus_download_sets_build_path ∅ ∅
           (mk_build_info "firefox.tar.bz2" None))) _ Hbi).
Defined.

Lemma build_dl_finished_filters_witness :
  build_infos (bis (ex_next (ex_world 3))) =
    Some (mk_build_info "firefox.tar.bz2" (Some "/tmp/firefox.tar.bz2")) /\
  _build_dl_finished
    (mk_download "http://archive/firefox.tar.bz2" "/tmp/firefox.tar.bz2" false None)
    (ex_next (ex_world 3)) =
  (mk_world (bis (ex_next (ex_world 3))) (files (ex_next (ex_world 3)))
     (queue (ex_next (ex_world 3)) ++ [TEvaluate])
     (dialogs (ex_next (ex_world 3))) (trace (ex_next (ex_world 3))), inr tt).
Proof.
  assert (Hbi : build_infos (bis (ex_next (ex_world 3))) =
                Some (mk_build_info "firefox.tar.bz2" (Some "/tmp/firefox.tar.bz2")))
    by (vm_compute; reflexivity).
  split; [exact Hbi|].
  exact (proj2 (proj2 (build_dl_finished_filters _ _ "/tmp/firefox.tar.bz2"
           (mk_download "http://archive/firefox.tar.bz2" "/tmp/firefox.tar.bz2" false None)
           Hbi eq_refl)) eq_refl eq_refl eq_refl).
Defined.

Lemma finish_requires_evaluate_witness :
  launcher (mk_test_runner (C:=ex_collab) tt None None) = None /\
  tr_finish (mk_test_runner (C:=ex_collab) tt None None) "g" = None.
Proof.
  split; [reflexivity|].
  exact (proj1 (finish_requires_evaluate (mk_test_runner tt None None) "g" "b" None)
           eq_refl).
Defined.

Lemma stop_idempotent_witness :
  let r0 : bisect_runner := mk_bisect_runner ∅ None None ∅ in
  let r1 : bisect_runner :=
    mk_bisect_runner {[0 := bis (ex_next (ex_world 3))]} (Some 0) (Some 5) {[5]} in
  stop r0 = r0 /\
  exists b', heap (stop r1) !! 0 = Some b' /\ all_canceled (dm b').
Proof.
  intros r0 r1. split.
  - exact (proj1 (stop_idempotent r0) eq_refl eq_refl).
  - exact (proj2 (proj2 (proj2 (proj2 (proj2 (stop_idempotent r1)))))
             0 _ eq_refl (lookup_singleton_eq _ _)).
Defined.

Lemma bisection_finished_outcomes_witness :
  let b := with_error (new_gui_bisector (C:=ex_collab))
             (Some (MozRegressionError "no build to bisect")) in
  let r : bisect_runner := mk_bisect_runner {[0 := b]} (Some 0) (Some 5) {[5]} in
  bisection_finished r EXCEPTION =
    Some (mk_end_dialog Critical "Error: no build to bisect", stop r).
Proof.
  intros b r.
  exact (proj1 (proj2 (bisection_finished_outcomes r EXCEPTION)) 0 b _
           eq_refl eq_refl (lookup_singleton_eq _ _) eq_refl).
Defined.

Lemma dialog_verdict_good_or_bad_witness :
  let w := mk_world (with_test_runner (new_gui_bisector (C:=ex_collab))
                       (mk_test_runner tt None (Some tt))) ∅ [] 1 [] in
  launcher (test_runner (bis w)) = Some tt /\
  verdict (test_runner (bis (runner_evaluate Yes w))) = Some "g".
Proof.
  intros w. split; [reflexivity|].
  exact (proj2 (proj2 (proj2 (dialog_verdict_good_or_bad Yes))) w tt eq_refl).
Defined.





Lemma step_finished_verdicts_witness :
  reachable ex_done /\ map snd (finished_steps (trace ex_done)) = [Some "g"] /\
  Forall good_verdict (map snd (finished_steps (trace ex_done))).
Proof.
  pose proof (proj2 (proj2 (proj2 ex_runs_reachable))) as R.
  split; [exact R|]. split; [vm_compute; reflexivity|].
  exact (step_finished_verdicts ex_done R).
Defined.


Lemma finished_at_most_once_witness :
  reachable ex_done /\ count_finished (trace ex_done) <= 1.
Proof.
  pose proof (proj2 (proj2 (proj2 ex_runs_reachable))) as R.
  split; [exact R|exact (finished_at_most_once ex_done R)].
Defined.

Lemma finished_is_final_witness :
  reachable ex_done /\ 1 <= count_finished (trace ex_done) /\
  forall w', wsteps ex_done w' -> w' = ex_done.
Proof.
  pose proof (proj2 (proj2 (proj2 ex_runs_reachable))) as R.
  assert (Hc : 1 <= count_finished (trace ex_done)) by (vm_compute; lia).
  split; [exact R|]. split; [exact Hc|].
  exact (proj2 (proj2 (proj2 (finished_is_final ex_done R Hc)))).
Defined.

Lemma one_download_tracked_witness :
  let d := mk_download "http://archive/firefox.tar.bz2" "/tmp/firefox.tar.bz2" false None in
  reachable (ex_task (ex_world 3)) /\
  dm (bis (ex_task (ex_world 3))) !! "/tmp/firefox.tar.bz2" = Some d /\
  ("/tmp/firefox.tar.bz2" = "/tmp/firefox.tar.bz2" /\ d = d).
Proof.
  intros d. pose proof (proj1 ex_runs_reachable) as R.
  assert (Hk : dm (bis (ex_task (ex_world 3))) !! "/tmp/firefox.tar.bz2" = Some d)
    by (vm_compute; reflexivity).
  split; [exact R|]. split; [exact Hk|].
  exact (one_download_tracked _ _ _ d d R Hk Hk).
Defined.

Lemma answer_finds_launcher_witness :
  reachable ex_dialog_open /\ 0 < dialogs ex_dialog_open /\
  dialogs ex_dialog_open = 1 /\
  exists tr' evs, tr_finish (test_runner (bis ex_dialog_open)) "b" = Some (tr', evs).
Proof.
  pose proof (proj1 (proj2 (proj2 ex_runs_reachable))) as R.
  assert (Hd : 0 < dialogs ex_dialog_open) by (vm_compute; lia).
  destruct (answer_finds_launcher ex_dialog_open R Hd) as (H1 & _ & H3).
  split; [exact R|]. split; [exact Hd|]. split; [exact H1|exact (H3 "b")].
Defined.

Lemma failed_download_stalls_witness :
  let d := mk_download "http://archive/firefox.tar.bz2" "/tmp/firefox.tar.bz2" false None in
  reachable (ex_task (ex_world 3)) /\
  dm (bis (ex_task (ex_world 3))) !! "/tmp/firefox.tar.bz2" = Some d /\
  forall w', wsteps (download_done "/tmp/firefox.tar.bz2" d (Some "HTTP 404")
                       (ex_task (ex_world 3))) w' ->
    count_finished (trace w') = 0.
Proof.
  intros d. pose proof (proj1 ex_runs_reachable) as R.
  assert (Hk : dm (bis (ex_task (ex_world 3))) !! "/tmp/firefox.tar.bz2" = Some d)
    by (vm_compute; reflexivity).
  split; [exact R|]. split; [exact Hk|].
  intros w' Hrt. exact (proj2 (failed_download_stalls _ _ d "HTTP 404" R Hk w' Hrt)).
Defined.

Lemma runner_bisect_replaces_run_witness :
  heap ex_runner !! 1 = None /\ (7 ∉ running ex_runner) /\ rthread ex_runner <> Some 7 /\
  (let '(r', res) := runner_bisect ex_runner 1 7 ex_options in
   rbisector r' = Some 1 /\ (7 ∈ running r' <-> exists a, res = inr a)).
Proof.
  assert (Hi : heap ex_runner !! 1 = None) by (vm_compute; reflexivity).
  assert (Ht : 7 ∉ running ex_runner) by (unfold ex_runner; simpl; set_solver).
  assert (Hr : rthread ex_runner <> Some 7) by (unfold ex_runner; simpl; congruence).
  split; [exact Hi|]. split; [exact Ht|]. split; [exact Hr|].
  pose proof (runner_bisect_replaces_run ex_runner 1 7 ex_options Hi Ht Hr) as Hx.
  destruct (runner_bisect ex_runner 1 7 ex_options) as [r' res].
  destruct Hx as (H1 & _ & _ & _ & _ & H6). split; [exact H1|exact H6].
Defined.


